(** * Data-access layer and profile modal: a shallow embedding

    The development follows the two source files of the application:
    the data-access module built on the hosted backend client
    ([supabase], [getCurrentUserProfile] ... [getBlogPost]) and the
    profile modal component ([fetchProfileData], [checkAuthStatus],
    [handleUsernameSubmit], [handleProfilePictureChange],
    [handleSaveProfile]).

    Every function of the source is an [async] function whose only
    observable behaviour is the sequence of calls it makes on its
    environment (the backend client, the clock, the random source, the
    console, the UI) and the value it finally returns or throws.  Such a
    function is embedded as a finite tree of type [Prog A]: a leaf is a
    returned value or a thrown exception, a node is one call on the
    environment together with the continuation that receives the answer.

    Conventions of the embedding.
    - A JavaScript string is the sequence of its code units; code units
      are taken in the range of [ascii].
    - A JavaScript number is a double.  [VNum n] is the double holding the
      integer [n] (a counter, a time in milliseconds) and [VNaN] is
      not-a-number; numbers with a fractional part are not represented,
      the source only passes them on.  The only arithmetic of the source
      is [view_count + 1], which rounds as the addition of doubles does
      ([to_double]).
    - A row, and every object literal sent to the backend, is a finite map
      from field names to values.
    - The backend client settles every request by resolving to a
      [{data, error}] pair: it reports failures in [error].
    - [createClient] belongs to the client library, not to the repository:
      it is a parameter of the module, and it may throw. *)

From Stdlib Require Import ZArith String Ascii List Sorting.Sorted.
From stdpp Require Import base option list strings gmap sorting pretty.

Open Scope string_scope.
Open Scope Z_scope.

(** ** JavaScript values *)

Inductive Value : Type :=
  | VNull
  | VBool (b : bool)
  | VNum (n : Z)
  | VNaN
  | VStr (s : string)
  | VArr (l : list string).

#[global] Instance Value_eq_dec : EqDecision Value.
Proof. solve_decision. Defined.

(** An object; a missing key reads as [undefined], here [None]. *)
Abbreviation Obj := (gmap string Value).

(** Truthiness of a value ([if (v)], [v || d], [!v]). *)
Definition truthy (v : Value) : bool :=
  match v with
  | VNull => false
  | VBool b => b
  | VNum n => negb (n =? 0)
  | VNaN => false
  | VStr s => negb (String.eqb s "")
  | VArr _ => true
  end.

(** [v || d] where [v] is a property read. *)
Definition js_or (v : option Value) (d : Value) : Value :=
  match v with
  | Some x => if truthy x then x else d
  | None => d
  end.

(** [String(v)], the conversion applied by a template literal. *)
Definition js_String (v : option Value) : string :=
  match v with
  | None => "undefined"
  | Some VNull => "null"
  | Some (VBool true) => "true"
  | Some (VBool false) => "false"
  | Some (VNum n) => pretty n
  | Some VNaN => "NaN"
  | Some (VStr s) => s
  | Some (VArr l) => String.concat "," l
  end.

(** The double nearest to the integer [z]: a double carries 53 significant
    bits, so an integer of more bits is rounded to a multiple of the
    weight of its 53rd bit, a tie going to the even significand. *)
Definition to_double (z : Z) : Z :=
  let a := Z.abs z in
  let e := Z.log2 a - 52 in
  if e <=? 0 then z
  else
    let ulp := 2 ^ e in
    let q := a / ulp in
    let r := a mod ulp in
    let half := ulp / 2 in
    let q' := if r <? half then q
              else if half <? r then q + 1
              else if Z.even q then q else q + 1 in
    Z.sgn z * (q' * ulp).

(** [v + 1] where [v] is a property read: on a number, the sum rounded to
    a double. *)
Definition js_plus_one (v : option Value) : Value :=
  match v with
  | None => VNaN
  | Some VNull => VNum 1
  | Some (VBool b) => VNum (if b then 2 else 1)
  | Some (VNum n) => VNum (to_double (n + 1))
  | Some VNaN => VNaN
  | Some (VStr s) => VStr (s +:+ "1")
  | Some (VArr l) => VStr (String.concat "," l +:+ "1")
  end.

(** ** Strings *)

Definition is_white_space (a : ascii) : bool :=
  match N_of_ascii a with
  | 9%N | 10%N | 11%N | 12%N | 13%N | 32%N | 160%N => true
  | _ => false
  end.

Fixpoint trimStart (s : string) : string :=
  match s with
  | EmptyString => EmptyString
  | String a s' => if is_white_space a then trimStart s' else s
  end.

Fixpoint trimEnd (s : string) : string :=
  match s with
  | EmptyString => EmptyString
  | String a s' =>
      match trimEnd s' with
      | EmptyString => if is_white_space a then EmptyString else String a EmptyString
      | t => String a t
      end
  end.

(** [s.trim()] *)
Definition trim (s : string) : string := trimEnd (trimStart s).

(** [\d] *)
Definition is_digit (a : ascii) : bool :=
  let n := N_of_ascii a in (48 <=? n)%N && (n <=? 57)%N.

Fixpoint all_digits (s : string) : bool :=
  match s with
  | EmptyString => true
  | String a s' => is_digit a && all_digits s'
  end.

(** [/^\d{7}$/]: without the [m] flag [^] and [$] are the two ends of the
    input, so the whole string is seven digits. *)
Definition re_seven_digits (s : string) : bool :=
  (String.length s =? 7)%nat && all_digits s.

(** [/^\d+$/]: the whole string is one or more digits. *)
Definition re_digits (s : string) : bool :=
  negb (String.eqb s "") && all_digits s.

(** [s.split(c)] for a one-character separator: never the empty array. *)
Fixpoint split (c : ascii) (s : string) : list string :=
  match s with
  | EmptyString => [EmptyString]
  | String a s' =>
      if Ascii.eqb a c then EmptyString :: split c s'
      else match split c s' with
           | [] => [String a EmptyString]
           | w :: ws => String a w :: ws
           end
  end.

(** [arr.pop()]: the last element, [undefined] on the empty array. *)
Definition pop (l : list string) : option Value := VStr <$> last l.

(** [s.substring(n)] *)
Fixpoint substring_from (n : nat) (s : string) : string :=
  match n, s with
  | O, _ => s
  | S n', String _ s' => substring_from n' s'
  | S _, EmptyString => EmptyString
  end.

(** [s.startsWith(p)] *)
Definition startsWith (s p : string) : bool := String.prefix p s.

(** ** The environment: backend client, clock, console, UI *)

(** The client object, made by the library from a URL and a key. *)
Record Client := { supabaseUrl : string; supabaseAnonKey : string }.

(** The error object of a [{data, error}] result. *)
Record BackendError := { message : string }.

(** The [{data, error}] pair every request resolves to. *)
Record Result (D : Type) := { data : option D; error : option BackendError }.
Arguments data {D} _.
Arguments error {D} _.

(** The part of a [File] the source reads: [file.name], [file.type],
    [file.size]. *)
Record File := { file_name : string; file_type : string; file_size : Z }.

(** A request as the query builder accumulates it. *)
Inductive Verb : Type :=
  | Select (columns : string)
  | Insert (rows : list Obj)
  | Update (payload : Obj)
  | Delete.

Record Request := {
  table : string;
  verb : Verb;
  filters : list (string * Value);      (* [.eq(column, value)] *)
  ordering : list (string * bool);      (* [.order(column, {ascending})] *)
  returning : bool                      (* [.select()] chained on a write *)
}.

(** The builder methods; [supabase.from(t).select('*').eq(c, v)] reads
    [sb.from t |> sb.select "*" |> sb.eq c v]. *)
Module sb.
Definition from (t : string) : string := t.
Definition select (columns : string) (t : string) : Request :=
  {| table := t; verb := Select columns; filters := []; ordering := [];
     returning := false |}.
Definition insert (rows : list Obj) (t : string) : Request :=
  {| table := t; verb := Insert rows; filters := []; ordering := [];
     returning := false |}.
Definition update (payload : Obj) (t : string) : Request :=
  {| table := t; verb := Update payload; filters := []; ordering := [];
     returning := false |}.
Definition delete (t : string) : Request :=
  {| table := t; verb := Delete; filters := []; ordering := [];
     returning := false |}.
Definition eq (column : string) (v : Value) (q : Request) : Request :=
  {| table := table q; verb := verb q; filters := filters q ++ [(column, v)];
     ordering := ordering q; returning := returning q |}.
Definition order (column : string) (ascending : bool) (q : Request) : Request :=
  {| table := table q; verb := verb q; filters := filters q;
     ordering := ordering q ++ [(column, ascending)]; returning := returning q |}.
Definition select_returning (q : Request) : Request :=
  {| table := table q; verb := verb q; filters := filters q;
     ordering := ordering q; returning := true |}.
End sb.

Notation "x |> f" := (f x) (at level 68, left associativity, only parsing).

(** The [useState] setters of the modal. *)
Inductive StateUpdate : Type :=
  | setUserPins (pins : list Obj)
  | setLoading (b : bool)
  | setNewUsername (s : string)
  | setIsEditingUsername (b : bool)
  | setIsAuthenticated (b : bool)
  | setUserProfile (p : option Obj)
  | setIsUploadingProfilePicture (b : bool)
  | setIsEditingProfile (b : bool)
  | setEditAboutMe (v : Value)
  | setEditContactInfo (v : Value)
  | setSavingProfile (b : bool).

(** One call on the environment. *)
Inductive Effect : Type :=
  (* backend client *)
  | AuthGetUser                                   (* [await supabase.auth.getUser()] *)
  | Await (q : Request)                           (* [await] of a builder *)
  | AwaitSingle (q : Request)                     (* [await] of [builder.single()] *)
  | StorageUpload (bucket path : string) (file : File)
                  (cacheControl : string) (upsert : bool)
  | StorageGetPublicUrl (bucket path : string)
  | StorageRemove (bucket : string) (paths : list string)
  (* clock and random source *)
  | DateNow                                       (* [Date.now()] *)
  | DateToISOString                               (* [new Date().toISOString()] *)
  | MathRandomBase36                              (* [Math.random().toString(36)] *)
  (* console and UI *)
  | ConsoleLog (msg : string)
  | ConsoleError (msg : string)
  | Alert (msg : string)
  | SetState (u : StateUpdate)
  | OnUsernameChange (newUsername : string)
  | ResetFileInput.                               (* [input.value = ''] *)

(** The answer to each call: [data.user] as the user's id, rows, one row,
    [data.path], [data.publicUrl], milliseconds, or nothing. *)
Definition Resp (e : Effect) : Type :=
  match e with
  | AuthGetUser => option string
  | Await _ => Result (list Obj)
  | AwaitSingle _ => Result Obj
  | StorageUpload _ _ _ _ _ => Result string
  | StorageGetPublicUrl _ _ => string
  | StorageRemove _ _ => Result (list string)
  | DateNow => Z
  | DateToISOString => string
  | MathRandomBase36 => string
  | _ => unit
  end.

(** A thrown value: [new Error(message)] or a run-time [TypeError]. *)
Inductive Exn : Type :=
  | Error (msg : string)
  | TypeError (msg : string).

(** ** Programs *)

Inductive Prog (A : Type) : Type :=
  | Ret (a : A)
  | Throw (x : Exn)
  | Call (e : Effect) (k : Resp e -> Prog A).
Arguments Ret {A} _.
Arguments Throw {A} _.
Arguments Call {A} _ _.

Fixpoint bind {A B : Type} (p : Prog A) (f : A -> Prog B) : Prog B :=
  match p with
  | Ret a => f a
  | Throw x => Throw x
  | Call e k => Call e (fun r => bind (k r) f)
  end.

(** [try { p } catch (err) { h err }] *)
Fixpoint try_catch {A : Type} (p : Prog A) (h : Exn -> Prog A) : Prog A :=
  match p with
  | Ret a => Ret a
  | Throw x => h x
  | Call e k => Call e (fun r => try_catch (k r) h)
  end.

(** [try { p } finally { f }] where [f] neither returns nor throws early. *)
Fixpoint try_finally {A : Type} (p : Prog A) (f : Prog unit) : Prog A :=
  match p with
  | Ret a => bind f (fun _ => Ret a)
  | Throw x => bind f (fun _ => Throw x)
  | Call e k => Call e (fun r => try_finally (k r) f)
  end.

Definition call (e : Effect) : Prog (Resp e) := Call e Ret.

Notation "x <- p ;; q" := (bind p (fun x => q))
  (at level 100, p at next level, right associativity, only parsing).
Notation "p ;;; q" := (bind p (fun _ => q))
  (at level 100, right associativity, only parsing).

(** ** Executions *)

(** One call together with its answer. *)
Definition Event : Type := { e : Effect & Resp e }.
Definition ev (e : Effect) (r : Resp e) : Event := existT e r.
Abbreviation Trace := (list Event).

Inductive Outcome (A : Type) : Type :=
  | Returned (a : A)
  | Thrown (x : Exn).
Arguments Returned {A} _.
Arguments Thrown {A} _.

(** [Exec p tr o]: against some environment, [p] makes the calls of [tr],
    receiving the answers recorded there, and ends in [o]. *)
Fixpoint Exec {A : Type} (p : Prog A) (tr : Trace) (o : Outcome A) : Prop :=
  match p with
  | Ret a => tr = [] /\ o = Returned a
  | Throw x => tr = [] /\ o = Thrown x
  | Call e k => exists (r : Resp e) (tr' : Trace), tr = ev e r :: tr' /\ Exec (k r) tr' o
  end.

(** An environment with state [W] answers every call. *)
Definition Handler (W : Type) : Type := forall e : Effect, W -> Resp e * W.

Fixpoint run {W A : Type} (h : Handler W) (p : Prog A) (w : W) : Outcome A * W * Trace :=
  match p with
  | Ret a => (Returned a, w, [])
  | Throw x => (Thrown x, w, [])
  | Call e k =>
      let '(r, w1) := h e w in
      let '(o, w2, tr) := run h (k r) w1 in
      (o, w2, ev e r :: tr)
  end.

(** ** The data-access module *)

(** [import.meta.env.X || ''] *)
Definition env_or_empty (x : option string) : string := default "" x.

(** The module-level client: [createClient] is called only when both
    connection parameters are non-empty, and [supabase] is [null]
    otherwise.  [createClient] is the library's function: it returns the
    client or throws, and what it throws escapes the module while it is
    loaded.  (The three diagnostic lines the module prints when it is
    loaded are left out.) *)
Definition supabase_of_env (createClient : string -> string -> Outcome Client)
    (VITE_SUPABASE_URL VITE_SUPABASE_ANON_KEY : option string)
  : Outcome (option Client) :=
  let supabaseUrl := env_or_empty VITE_SUPABASE_URL in
  let supabaseAnonKey := env_or_empty VITE_SUPABASE_ANON_KEY in
  if negb (String.eqb supabaseUrl "") && negb (String.eqb supabaseAnonKey "")
  then match createClient supabaseUrl supabaseAnonKey with
       | Returned client => Returned (Some client)
       | Thrown x => Thrown x
       end
  else Returned None.

(** An object literal; a property whose value is [undefined] is not sent. *)
Definition obj_lit (fields : list (string * option Value)) : Obj :=
  foldr (fun '(k, v) o => match v with Some x => <[k := x]> o | None => o end) ∅ fields.

(** [!error] *)
Definition no_error {D : Type} (r : Result D) : bool :=
  match error r with Some _ => false | None => true end.

(** A default parameter value. *)
Definition bucket_or_default (bucketName : option string) : string :=
  default "pin-images" bucketName.

(** Console messages are kept up to their text: the pictograph that opens
    some of them and the objects printed after them are left out. *)
Section DataAccess.

Variable supabase : option Client.

Definition getCurrentUserProfile : Prog (option Obj) :=
  match supabase with
  | None => Ret None
  | Some _ =>
      try_catch
        (call (ConsoleLog "Checking for authenticated user...") ;;;
         user <- call AuthGetUser ;;
         match user with
         | None => call (ConsoleLog "No authenticated user found") ;;; Ret None
         | Some user_id =>
             call (ConsoleLog "User authenticated, fetching profile for:") ;;;
             r <- call (AwaitSingle (sb.from "profiles" |> sb.select "*"
                                       |> sb.eq "id" (VStr user_id))) ;;
             match error r with
             | Some _ => call (ConsoleError "Error fetching user profile:") ;;; Ret None
             | None =>
                 match data r with
                 | None => call (ConsoleLog "No profile found for user:") ;;; Ret None
                 | Some profile =>
                     call (ConsoleLog "Profile fetched successfully:") ;;;
                     Ret (Some profile)
                 end
             end
         end)
        (fun _ =>
           call (ConsoleError "Unexpected error in getCurrentUserProfile:") ;;; Ret None)
  end.

Definition getProfileByUsername (username : string) : Prog (option Obj) :=
  match supabase with
  | None => Ret None
  | Some _ =>
      try_catch
        (r <- call (Await (sb.from "profiles" |> sb.select "*"
                             |> sb.eq "username" (VStr username))) ;;
         match error r with
         | Some _ => call (ConsoleError "Error fetching profile by username:") ;;; Ret None
         | None =>
             match data r with
             | Some (first :: _) => Ret (Some first)
             | _ => Ret None
             end
         end)
        (fun _ =>
           call (ConsoleError "Unexpected error in getProfileByUsername:") ;;; Ret None)
  end.

Definition updateUserProfile (userId : string) (profileData : Obj) : Prog bool :=
  match supabase with
  | None => Ret false
  | Some _ =>
      try_catch
        (now <- call DateToISOString ;;
         r <- call (Await (sb.from "profiles"
                             |> sb.update (<["updated_at" := VStr now]> profileData)
                             |> sb.eq "id" (VStr userId))) ;;
         Ret (no_error r))
        (fun _ => call (ConsoleError "Error updating profile:") ;;; Ret false)
  end.

Definition getUserPins (username : string) : Prog (list Obj) :=
  match supabase with
  | None => Ret []
  | Some _ =>
      r <- call (Await (sb.from "pins" |> sb.select "*"
                          |> sb.eq "username" (VStr username)
                          |> sb.order "created_at" false)) ;;
      Ret (default [] (data r))
  end.

Definition uploadImage (file : File) (userId : string) (bucketName : option string)
  : Prog (option string) :=
  match supabase with
  | None => Ret None
  | Some _ =>
      try_catch
        (let fileExt := pop (split "." (file_name file)) in
         now <- call DateNow ;;
         rnd <- call MathRandomBase36 ;;
         let fileName :=
           userId +:+ "/" +:+ js_String (Some (VNum now)) +:+ "-"
             +:+ substring_from 2 rnd +:+ "." +:+ js_String fileExt in
         r <- call (StorageUpload (bucket_or_default bucketName) fileName file
                      "3600" false) ;;
         match error r with
         | Some _ => call (ConsoleError "Error uploading image:") ;;; Ret None
         | None =>
             match data r with
             | Some path => Ret (Some path)
             | None => Throw (TypeError "Cannot read properties of null (reading 'path')")
             end
         end)
        (fun _ => call (ConsoleError "Failed to upload image:") ;;; Ret None)
  end.

Definition getImageUrl (path : string) (bucketName : option string) : Prog string :=
  match supabase with
  | None => Ret ""
  | Some _ => call (StorageGetPublicUrl (bucket_or_default bucketName) path)
  end.

Definition deleteImage (path : string) (bucketName : option string) : Prog bool :=
  match supabase with
  | None => Ret false
  | Some _ =>
      try_catch
        (r <- call (StorageRemove (bucket_or_default bucketName) [path]) ;;
         Ret (no_error r))
        (fun _ => call (ConsoleError "Failed to delete image:") ;;; Ret false)
  end.

Definition getMarketplaceItems : Prog (list Obj) :=
  match supabase with
  | None => Ret []
  | Some _ =>
      try_catch
        (r <- call (Await (sb.from "marketplace_items" |> sb.select "*"
                             |> sb.eq "is_active" (VBool true)
                             |> sb.order "created_at" false)) ;;
         match error r with
         | Some _ => call (ConsoleError "Error fetching marketplace items:") ;;; Ret []
         | None => Ret (default [] (data r))
         end)
        (fun _ => call (ConsoleError "Failed to fetch marketplace items:") ;;; Ret [])
  end.

Definition createMarketplaceItem (title description : string) (price : Z)
    (images storagePaths : list string) : Prog (option Obj) :=
  match supabase with
  | None => Ret None
  | Some _ =>
      try_catch
        (profile <- getCurrentUserProfile ;;
         match profile with
         | None => Throw (Error "User not authenticated")
         | Some profile =>
             r <- call (AwaitSingle
                          (sb.from "marketplace_items"
                             |> sb.insert [obj_lit [
                                  ("seller_username", profile !! "username");
                                  ("title", Some (VStr (trim title)));
                                  ("description", Some (VStr (trim description)));
                                  ("price", Some (VNum price));
                                  ("images", Some (VArr images));
                                  ("storage_paths", Some (VArr storagePaths));
                                  ("is_active", Some (VBool true))]]
                             |> sb.select_returning)) ;;
             match error r with
             | Some e =>
                 call (ConsoleError "Error creating marketplace item:") ;;;
                 Throw (Error (message e))
             | None => Ret (data r)
             end
         end)
        (fun err => call (ConsoleError "Failed to create marketplace item:") ;;; Throw err)
  end.

Definition updateMarketplaceItem (itemId : string) (updates : Obj) : Prog bool :=
  match supabase with
  | None => Ret false
  | Some _ =>
      try_catch
        (now <- call DateToISOString ;;
         r <- call (Await (sb.from "marketplace_items"
                             |> sb.update (<["updated_at" := VStr now]> updates)
                             |> sb.eq "id" (VStr itemId))) ;;
         Ret (no_error r))
        (fun _ => call (ConsoleError "Failed to update marketplace item:") ;;; Ret false)
  end.

Definition deleteMarketplaceItem (itemId : string) : Prog bool :=
  match supabase with
  | None => Ret false
  | Some _ =>
      try_catch
        (r <- call (Await (sb.from "marketplace_items" |> sb.delete
                             |> sb.eq "id" (VStr itemId))) ;;
         Ret (no_error r))
        (fun _ => call (ConsoleError "Failed to delete marketplace item:") ;;; Ret false)
  end.

Definition getUserMarketplaceItems (username : string) : Prog (list Obj) :=
  match supabase with
  | None => Ret []
  | Some _ =>
      try_catch
        (r <- call (Await (sb.from "marketplace_items" |> sb.select "*"
                             |> sb.eq "seller_username" (VStr username)
                             |> sb.order "created_at" false)) ;;
         match error r with
         | Some _ => call (ConsoleError "Error fetching user marketplace items:") ;;; Ret []
         | None => Ret (default [] (data r))
         end)
        (fun _ => call (ConsoleError "Failed to fetch user marketplace items:") ;;; Ret [])
  end.

(** [publishedOnly] defaults to [true]. *)
Definition getBlogPosts (publishedOnly : option bool) : Prog (list Obj) :=
  match supabase with
  | None => Ret []
  | Some _ =>
      try_catch
        (let query := sb.from "blog_posts" |> sb.select "*"
                        |> sb.order "created_at" false in
         let query := if default true publishedOnly
                      then query |> sb.eq "is_published" (VBool true)
                      else query in
         r <- call (Await query) ;;
         match error r with
         | Some _ => call (ConsoleError "Error fetching blog posts:") ;;; Ret []
         | None => Ret (default [] (data r))
         end)
        (fun _ => call (ConsoleError "Failed to fetch blog posts:") ;;; Ret [])
  end.

Definition getUserBlogPosts (username : string) : Prog (list Obj) :=
  match supabase with
  | None => Ret []
  | Some _ =>
      try_catch
        (r <- call (Await (sb.from "blog_posts" |> sb.select "*"
                             |> sb.eq "author_username" (VStr username)
                             |> sb.order "created_at" false)) ;;
         match error r with
         | Some _ => call (ConsoleError "Error fetching user blog posts:") ;;; Ret []
         | None => Ret (default [] (data r))
         end)
        (fun _ => call (ConsoleError "Failed to fetch user blog posts:") ;;; Ret [])
  end.

(** [isPublished] defaults to [false]. *)
Definition createBlogPost (title content : string) (isPublished : option bool)
  : Prog (option Obj) :=
  match supabase with
  | None => Ret None
  | Some _ =>
      try_catch
        (profile <- getCurrentUserProfile ;;
         match profile with
         | None => Throw (Error "User not authenticated")
         | Some profile =>
             r <- call (AwaitSingle
                          (sb.from "blog_posts"
                             |> sb.insert [obj_lit [
                                  ("author_username", profile !! "username");
                                  ("title", Some (VStr (trim title)));
                                  ("content", Some (VStr (trim content)));
                                  ("is_published",
                                    Some (VBool (default false isPublished)))]]
                             |> sb.select_returning)) ;;
             match error r with
             | Some e =>
                 call (ConsoleError "Error creating blog post:") ;;;
                 Throw (Error (message e))
             | None => Ret (data r)
             end
         end)
        (fun err => call (ConsoleError "Failed to create blog post:") ;;; Throw err)
  end.

Definition updateBlogPost (postId : string) (updates : Obj) : Prog bool :=
  match supabase with
  | None => Ret false
  | Some _ =>
      try_catch
        (now <- call DateToISOString ;;
         r <- call (Await (sb.from "blog_posts"
                             |> sb.update (<["updated_at" := VStr now]> updates)
                             |> sb.eq "id" (VStr postId))) ;;
         Ret (no_error r))
        (fun _ => call (ConsoleError "Failed to update blog post:") ;;; Ret false)
  end.

Definition deleteBlogPost (postId : string) : Prog bool :=
  match supabase with
  | None => Ret false
  | Some _ =>
      try_catch
        (r <- call (Await (sb.from "blog_posts" |> sb.delete
                             |> sb.eq "id" (VStr postId))) ;;
         Ret (no_error r))
        (fun _ => call (ConsoleError "Failed to delete blog post:") ;;; Ret false)
  end.

Definition getBlogPost (postId : string) : Prog (option Obj) :=
  match supabase with
  | None => Ret None
  | Some _ =>
      try_catch
        (r <- call (AwaitSingle (sb.from "blog_posts" |> sb.select "*"
                                   |> sb.eq "id" (VStr postId))) ;;
         match error r with
         | Some _ => call (ConsoleError "Error fetching blog post:") ;;; Ret None
         | None =>
             (* Increment view count *)
             match data r with
             | Some post =>
                 call (Await (sb.from "blog_posts"
                                |> sb.update
                                     (obj_lit [("view_count",
                                                Some (js_plus_one (post !! "view_count")))])
                                |> sb.eq "id" (VStr postId))) ;;;
                 Ret tt
             | None => Ret tt
             end ;;;
             Ret (data r)
         end)
        (fun _ => call (ConsoleError "Failed to fetch blog post:") ;;; Ret None)
  end.

End DataAccess.


(** ** The profile modal *)

(** The props the handlers read; the callback props are calls on the
    environment ([OnUsernameChange]). *)
Record UserProfileModalProps := {
  isOpen : bool;
  username : string;
  currentUser : string;
  isCurrentUserAdmin : bool
}.

(** The state a render closes over.  [userProfile] is a fetched row, the
    guest record built by [fetchProfileData], or [null];
    [profilePictureInputRef] tells whether the ref holds the input. *)
Record State := {
  userPins : list Obj;
  loading : bool;
  newUsername : string;
  isEditingUsername : bool;
  isAuthenticated : bool;
  userProfile : option Obj;
  isUploadingProfilePicture : bool;
  isEditingProfile : bool;
  editAboutMe : string;
  editContactInfo : string;
  savingProfile : bool;
  profilePictureInputRef : bool
}.

(** [s || null] on a string. *)
Definition str_or_null (s : string) : Value :=
  if String.eqb s "" then VNull else VStr s.

Section UserProfileModal.

Variable supabase : option Client.
Variable props : UserProfileModalProps.
Variable st : State.

Definition isOwnProfile : bool := String.eqb (username props) (currentUser props).

(** [username.match(/^\d{7}$/)], read for its truthiness. *)
Definition isGuestUser : bool := re_seven_digits (username props).

Definition checkAuthStatus : Prog unit :=
  match supabase with
  | None => Ret tt
  | Some _ =>
      try_catch
        (user <- call AuthGetUser ;;
         call (SetState (setIsAuthenticated (bool_decide (is_Some user)))) ;;;
         match user with
         | Some _ =>
             profile <- getCurrentUserProfile supabase ;;
             call (SetState (setUserProfile profile))
         | None => Ret tt
         end)
        (fun _ =>
           call (ConsoleError "Error checking auth status:") ;;;
           call (SetState (setIsAuthenticated false)))
  end.

Definition fetchProfileData : Prog unit :=
  call (SetState (setLoading true)) ;;;
  try_finally
    (try_catch
       (pins <- getUserPins supabase (username props) ;;
        call (SetState (setUserPins pins)) ;;;
        (* Only fetch complete profile data for authenticated users,
           and skip guest users *)
        if negb isGuestUser then
          profile <- (if isOwnProfile then getCurrentUserProfile supabase
                      else getProfileByUsername supabase (username props)) ;;
          call (SetState (setUserProfile profile)) ;;;
          (* Initialize edit fields *)
          match profile with
          | Some profile =>
              call (SetState (setEditAboutMe (js_or (profile !! "about_me") (VStr "")))) ;;;
              call (SetState (setEditContactInfo
                                (js_or (profile !! "contact_info") (VStr ""))))
          | None => Ret tt
          end
        else if isGuestUser then
          (* Create a mock profile for guest users to avoid database queries *)
          created_at <- call DateToISOString ;;
          updated_at <- call DateToISOString ;;
          let mockProfile := obj_lit [
            ("id", Some VNull);
            ("username", Some (VStr (username props)));
            ("role", Some (VStr "guest"));
            ("created_at", Some (VStr created_at));
            ("updated_at", Some (VStr updated_at));
            ("contact_info", Some VNull);
            ("about_me", Some VNull);
            ("profile_picture_url", Some VNull);
            ("banner_url", Some VNull)] in
          call (SetState (setUserProfile (Some mockProfile)))
        else Ret tt)
       (fun _ => call (ConsoleError "Error fetching profile data:")))
    (call (SetState (setLoading false))).

(** The effect run on open: both functions are started, neither awaited. *)
Definition useEffect_open : list (Prog unit) :=
  if isOpen props && negb (String.eqb (username props) "")
  then [fetchProfileData; checkAuthStatus]
  else [].

Definition handleUsernameSubmit : Prog unit :=
  if negb (String.eqb (trim (newUsername st)) "")
     && (String.length (newUsername st) =? 7)%nat
     && re_digits (newUsername st)
  then
    call (OnUsernameChange (newUsername st)) ;;;
    call (SetState (setIsEditingUsername false)) ;;;
    call (SetState (setNewUsername ""))
  else Ret tt.

(** [userProfile.id] reaches its two callees through a string conversion:
    a template literal in [uploadImage], a URL parameter in [.eq]. *)
Definition userProfile_id (profile : Obj) : string := js_String (profile !! "id").

(** [file] is [event.target.files?.[0]]. *)
Definition handleProfilePictureChange (file : option File) : Prog unit :=
  match file, userProfile st with
  | Some file, Some profile =>
      if negb (isAuthenticated st) || isGuestUser then Ret tt
      else if negb (startsWith (file_type file) "image/") then
        (* Validate file type *)
        call (Alert "Please select an image file")
      else if file_size file >? 5 * 1024 * 1024 then
        (* Validate file size (max 5MB) *)
        call (Alert "Image size must be less than 5MB")
      else
        call (SetState (setIsUploadingProfilePicture true)) ;;;
        try_finally
          (try_catch
             (call (ConsoleLog "Starting profile picture upload...") ;;;
              (* Upload image to profile-pictures bucket *)
              path <- uploadImage supabase file (userProfile_id profile)
                        (Some "profile-pictures") ;;
              match path with
              | Some (String a s as path) =>
                  call (ConsoleLog "Image uploaded successfully:") ;;;
                  (* Get public URL *)
                  publicUrl <- getImageUrl supabase path (Some "profile-pictures") ;;
                  call (ConsoleLog "Public URL generated:") ;;;
                  (* Update user profile with new picture URL *)
                  updateSuccess <- updateUserProfile supabase (userProfile_id profile)
                                     (obj_lit [("profile_picture_url",
                                                Some (VStr publicUrl))]) ;;
                  if negb updateSuccess then Throw (Error "Failed to update profile")
                  else
                    call (ConsoleLog "Profile updated successfully") ;;;
                    (* Re-fetch profile data to update UI *)
                    fetchProfileData ;;;
                    call (Alert "Profile picture updated successfully!")
              | _ => Throw (Error "Failed to upload image")
              end)
             (fun _ =>
                call (ConsoleError "Error updating profile picture:") ;;;
                call (Alert "Failed to update profile picture. Please try again.")))
          (call (SetState (setIsUploadingProfilePicture false)) ;;;
           (* Reset file input *)
           if profilePictureInputRef st then call ResetFileInput else Ret tt)
  | _, _ => Ret tt
  end.

Definition handleSaveProfile : Prog unit :=
  match userProfile st with
  | Some profile =>
      if isGuestUser then Ret tt
      else
        call (SetState (setSavingProfile true)) ;;;
        try_finally
          (try_catch
             (updateSuccess <- updateUserProfile supabase (userProfile_id profile)
                                 (obj_lit [
                                    ("about_me",
                                      Some (str_or_null (trim (editAboutMe st))));
                                    ("contact_info",
                                      Some (str_or_null (trim (editContactInfo st))))]) ;;
              if negb updateSuccess then Throw (Error "Failed to update profile")
              else
                (* Re-fetch profile data to update UI *)
                fetchProfileData ;;;
                call (SetState (setIsEditingProfile false)) ;;;
                call (Alert "Profile updated successfully!"))
             (fun _ =>
                call (ConsoleError "Error updating profile:") ;;;
                call (Alert "Failed to update profile. Please try again.")))
          (call (SetState (setSavingProfile false)))
  | None => Ret tt
  end.

End UserProfileModal.

(** ** Tasks in flight

    The event loop runs one task at a time and a task gives way only at an
    [await] of a backend request.  [settle] runs a task up to its next
    pending request; [resume] has the environment answer that request and
    runs the task up to the following one.  A schedule lists, answer after
    answer, the task whose pending request is answered next. *)

Definition is_async (e : Effect) : bool :=
  match e with
  | AuthGetUser | Await _ | AwaitSingle _
  | StorageUpload _ _ _ _ _ | StorageRemove _ _ => true
  | _ => false
  end.

Fixpoint settle {W A : Type} (h : Handler W) (p : Prog A) (w : W) : Prog A * W * Trace :=
  match p with
  | Call e k =>
      if is_async e then (p, w, [])
      else
        let '(r, w1) := h e w in
        let '(p', w2, tr) := settle h (k r) w1 in
        (p', w2, ev e r :: tr)
  | _ => (p, w, [])
  end.

Definition resume {W A : Type} (h : Handler W) (p : Prog A) (w : W) : Prog A * W * Trace :=
  match p with
  | Call e k =>
      let '(r, w1) := h e w in
      let '(p', w2, tr) := settle h (k r) w1 in
      (p', w2, ev e r :: tr)
  | _ => (p, w, [])
  end.

(** The tasks are started in order; each runs to its first pending request. *)
Fixpoint start {W A : Type} (h : Handler W) (ps : list (Prog A)) (w : W)
  : list (Prog A) * W * Trace :=
  match ps with
  | [] => ([], w, [])
  | p :: ps' =>
      let '(p1, w1, t1) := settle h p w in
      let '(ps1, w2, t2) := start h ps' w1 in
      (p1 :: ps1, w2, (t1 ++ t2)%list)
  end.

Fixpoint interleave {W A : Type} (h : Handler W) (sched : list nat)
    (ps : list (Prog A)) (w : W) : list (Prog A) * W * Trace :=
  match sched with
  | [] => (ps, w, [])
  | i :: sched' =>
      match ps !! i with
      | None => interleave h sched' ps w
      | Some p =>
          let '(p1, w1, t1) := resume h p w in
          let '(ps2, w2, t2) := interleave h sched' (<[i := p1]> ps) w1 in
          (ps2, w2, (t1 ++ t2)%list)
      end
  end.

Definition concurrently {W A : Type} (h : Handler W) (sched : list nat)
    (ps : list (Prog A)) (w : W) : list (Prog A) * W * Trace :=
  let '(ps1, w1, t1) := start h ps w in
  let '(ps2, w2, t2) := interleave h sched ps1 w1 in
  (ps2, w2, (t1 ++ t2)%list).

(** What a task has come to: [None] while a request is pending. *)
Definition finished {A : Type} (p : Prog A) : option (Outcome A) :=
  match p with
  | Ret a => Some (Returned a)
  | Throw x => Some (Thrown x)
  | Call _ _ => None
  end.

(** ** A reference backend

    The hosted service is not part of the repository.  The reference
    backend below gives the requests their documented meaning on tables
    held in memory: [.eq] keeps the rows whose column equals the value,
    [.order] sorts, [.single()] asks for exactly one row, an update
    overwrites the fields of its payload in the rows it matches.  It never
    fails for reasons of its own (network, permissions). *)

Record World := {
  db : gmap string (list Obj);          (* tables *)
  session : option string;              (* id of the signed-in user *)
  storage : gmap string (list string);  (* object paths of each bucket *)
  site : string;
  now_ms : Z;
  now_iso : string;
  random36 : string
}.

Definition set_db (d : gmap string (list Obj)) (w : World) : World :=
  {| db := d; session := session w; storage := storage w; site := site w;
     now_ms := now_ms w; now_iso := now_iso w; random36 := random36 w |}.

Definition set_storage (s : gmap string (list string)) (w : World) : World :=
  {| db := db w; session := session w; storage := s; site := site w;
     now_ms := now_ms w; now_iso := now_iso w; random36 := random36 w |}.

(** The row satisfies every [.eq] filter. *)
Definition matches (fs : list (string * Value)) (row : Obj) : bool :=
  forallb (fun '(c, v) => bool_decide (row !! c = Some v)) fs.

(** Sort keys: values of one type compare by their value, nulls sort last
    in ascending order. *)
Definition sort_key (v : option Value) : Z * Z * string :=
  match v with
  | Some (VBool b) => (0, if b then 1 else 0, "")
  | Some (VNum n) => (1, n, "")
  | Some VNaN => (2, 0, "")
  | Some (VStr s) => (3, 0, s)
  | Some (VArr l) => (4, 0, String.concat "," l)
  | Some VNull | None => (5, 0, "")
  end.

Definition key_leb (a b : Z * Z * string) : bool :=
  let '(r1, n1, s1) := a in
  let '(r2, n2, s2) := b in
  (r1 <? r2) || ((r1 =? r2) && ((n1 <? n2) || ((n1 =? n2) && String.leb s1 s2))).

(** [a] may come before [b] under [.order(column, {ascending})]. *)
Definition row_le (column : string) (ascending : bool) (a b : Obj) : Prop :=
  if ascending
  then key_leb (sort_key (a !! column)) (sort_key (b !! column))
  else key_leb (sort_key (b !! column)) (sort_key (a !! column)).

#[global] Instance row_le_dec column ascending : RelDecision (row_le column ascending).
Proof. intros a b. unfold row_le. destruct ascending; apply _. Defined.

Definition apply_order (ord : list (string * bool)) (rows : list Obj) : list Obj :=
  foldr (fun '(c, asc) rs => merge_sort (row_le c asc) rs) rows ord.

(** The new contents of the table and the rows the request concerns. *)
Definition exec_request (q : Request) (rows : list Obj) : list Obj * list Obj :=
  match verb q with
  | Select _ =>
      (rows, apply_order (ordering q) (List.filter (matches (filters q)) rows))
  | Insert new => ((rows ++ new)%list, new)
  | Update payload =>
      (map (fun row => if matches (filters q) row then payload ∪ row else row) rows,
       map (fun row => payload ∪ row) (List.filter (matches (filters q)) rows))
  | Delete =>
      (List.filter (fun row => negb (matches (filters q) row)) rows,
       List.filter (matches (filters q)) rows)
  end.

(** A read always carries its rows; a write only when [.select()] follows. *)
Definition carries_rows (q : Request) : bool :=
  match verb q with Select _ => true | _ => returning q end.

Definition failure {D : Type} (msg : string) : Result D :=
  {| data := None; error := Some {| message := msg |} |}.

Definition ref_handler : Handler World :=
  fun e w =>
    match e return Resp e * World with
    | AuthGetUser => (session w, w)
    | Await q =>
        match db w !! table q with
        | None => (failure "relation does not exist", w)
        | Some rows =>
            let '(rows', hit) := exec_request q rows in
            ({| data := if carries_rows q then Some hit else None; error := None |},
             set_db (<[table q := rows']> (db w)) w)
        end
    | AwaitSingle q =>
        match db w !! table q with
        | None => (failure "relation does not exist", w)
        | Some rows =>
            let '(rows', hit) := exec_request q rows in
            (match hit with
             | [row] => {| data := Some row; error := None |}
             | _ => failure "JSON object requested, multiple (or no) rows returned"
             end,
             set_db (<[table q := rows']> (db w)) w)
        end
    | StorageUpload bucket path _ _ upsert =>
        match storage w !! bucket with
        | None => (failure "Bucket not found", w)
        | Some paths =>
            if bool_decide (path ∈ paths) && negb upsert
            then (failure "The resource already exists", w)
            else ({| data := Some path; error := None |},
                  set_storage (<[bucket := path :: paths]> (storage w)) w)
        end
    | StorageGetPublicUrl bucket path =>
        (site w +:+ "/storage/v1/object/public/" +:+ bucket +:+ "/" +:+ path, w)
    | StorageRemove bucket paths =>
        match storage w !! bucket with
        | None => (failure "Bucket not found", w)
        | Some held =>
            ({| data := Some (List.filter (fun p => bool_decide (p ∈ paths)) held);
                error := None |},
             set_storage
               (<[bucket := List.filter (fun p => negb (bool_decide (p ∈ paths))) held]>
                  (storage w)) w)
        end
    | DateNow => (now_ms w, w)
    | DateToISOString => (now_iso w, w)
    | MathRandomBase36 => (random36 w, w)
    | _ => (tt, w)
    end.

(** ** Reading traces *)

Definition effect_of (x : Event) : Effect := projT1 x.

(** The calls made on the backend client. *)
Definition is_backend (e : Effect) : bool :=
  match e with
  | AuthGetUser | Await _ | AwaitSingle _ | StorageUpload _ _ _ _ _
  | StorageGetPublicUrl _ _ | StorageRemove _ _ => true
  | _ => false
  end.

Definition backend_calls (tr : Trace) : list Effect :=
  List.filter is_backend (map effect_of tr).

(** The calls that go over the network: [getPublicUrl] builds its URL
    locally. *)
Definition network_calls (tr : Trace) : list Effect :=
  List.filter is_async (map effect_of tr).

(** The request of a database call. *)
Definition request_of (e : Effect) : option Request :=
  match e with
  | Await q | AwaitSingle q => Some q
  | _ => None
  end.

Definition requests (tr : Trace) : list Request :=
  omap request_of (map effect_of tr).

Definition is_insert (q : Request) : bool :=
  match verb q with Insert _ => true | _ => false end.

(** The payloads of the updates issued. *)
Definition update_payload (q : Request) : option Obj :=
  match verb q with Update payload => Some payload | _ => None end.

(** The rows of the inserts issued. *)
Definition insert_rows (q : Request) : list Obj :=
  match verb q with Insert rows => rows | _ => [] end.

(** The answers of [DateToISOString] recorded in a trace. *)
Definition iso_reading (x : Event) : option string :=
  match x with
  | existT DateToISOString r => Some r
  | _ => None
  end.

Definition alerts (tr : Trace) : list string :=
  omap (fun e => match e with Alert msg => Some msg | _ => None end) (map effect_of tr).

Definition username_changes (tr : Trace) : list string :=
  omap (fun e => match e with OnUsernameChange s => Some s | _ => None end)
       (map effect_of tr).

(** ** A small deployment

    One signed-in user, three pins, one blog post, one empty bucket: the
    concrete state on which the functions are run below. *)

Definition demo_client : Client :=
  {| supabaseUrl := "https://demo.example"; supabaseAnonKey := "anon-key" |}.

Definition demo_pin (id owner created : string) : Obj :=
  obj_lit [("id", Some (VStr id)); ("username", Some (VStr owner));
           ("created_at", Some (VStr created))].

Definition demo_post (id : string) (views : Z) : Obj :=
  obj_lit [("id", Some (VStr id)); ("author_username", Some (VStr "alice"));
           ("view_count", Some (VNum views))].

Definition demo_profile : Obj :=
  obj_lit [("id", Some (VStr "u1")); ("username", Some (VStr "alice"));
           ("role", Some (VStr "user"))].

Definition demo_world : World := {|
  db := <["pins" := [demo_pin "1" "alice" "2024-01-01T10:00:00Z";
                     demo_pin "2" "bob" "2024-01-02T10:00:00Z";
                     demo_pin "3" "alice" "2024-01-03T10:00:00Z"]]>
        (<["blog_posts" := [demo_post "p1" 10]]>
        (<["profiles" := [demo_profile]]> ∅));
  session := Some "u1";
  storage := <["profile-pictures" := []]> ∅;
  site := "https://demo.example";
  now_ms := 1700000000000;
  now_iso := "2024-02-02T00:00:00.000Z";
  random36 := "0.k3x9q2"
|}.

(** The same deployment with nobody signed in. *)
Definition demo_world_signed_out : World := {|
  db := db demo_world; session := None; storage := storage demo_world;
  site := site demo_world; now_ms := now_ms demo_world;
  now_iso := now_iso demo_world; random36 := random36 demo_world
|}.

Definition outcome_of {W A : Type} (x : Outcome A * W * Trace) : Outcome A := x.1.1.
Definition trace_of {W A : Type} (x : Outcome A * W * Trace) : Trace := x.2.
Definition world_of {W A : Type} (x : Outcome A * W * Trace) : W := x.1.2.

(** * Statements

    The predicates in which the properties below are stated, and the
    concrete inputs on which they are exercised. *)

(** [p] comes back with [v] at once: against every environment it returns
    [v], makes no call, and leaves the environment as it was. *)
Definition falls_back {A : Type} (p : Prog A) (v : A) : Prop :=
  forall (W : Type) (h : Handler W) (w : W), run h p w = (Returned v, w, []).

(** The counts that [+ 1] takes to the next integer: the integers below
    2^53 in absolute value ([Number.isSafeInteger]). *)
Definition safe_count (n : Z) : Prop := Z.abs n < 2 ^ 53.

(** The shape of an execution of [getBlogPost postId]: the fetch comes
    first; when it answers with a row and no error, one update of that
    row's view_count to the fetched value plus 1 follows and the fetched
    row is returned; otherwise no request follows and null is returned.
    The sum is the one of the source, [data.view_count + 1]; on a count
    within the safe integers it is the next integer. *)
Definition read_then_increment (postId : string) (tr : Trace) (o : Outcome (option Obj))
  : Prop :=
  exists (fetched : Result Obj) (rest : Trace),
    tr = ev (AwaitSingle {| table := "blog_posts"; verb := Select "*";
                            filters := [("id", VStr postId)]; ordering := [];
                            returning := false |}) fetched :: rest /\
    match error fetched, data fetched with
    | None, Some post =>
        (exists answer : Result (list Obj),
           rest = [ev (Await {| table := "blog_posts";
                                verb := Update {["view_count" :=
                                                   js_plus_one (post !! "view_count")]};
                                filters := [("id", VStr postId)]; ordering := [];
                                returning := false |}) answer]) /\
        (forall n : Z, post !! "view_count" = Some (VNum n) -> safe_count n ->
                       js_plus_one (post !! "view_count") = VNum (n + 1)) /\
        o = Returned (Some post)
    | _, _ => requests rest = [] /\ o = Returned None
    end.

(** The shape of an execution of an update function on table [t]: the
    clock is read, then one update is issued whose payload is the caller's
    field set with [updated_at] overwritten by that reading. *)
Definition stamped_update (t id : string) (fields : Obj) (tr : Trace) (o : Outcome bool)
  : Prop :=
  exists (now : string) (answer : Result (list Obj)),
    tr = [ev DateToISOString now;
          ev (Await {| table := t; verb := Update (<["updated_at" := VStr now]> fields);
                       filters := [("id", VStr id)]; ordering := [];
                       returning := false |}) answer] /\
    (<["updated_at" := VStr now]> fields) !! "updated_at" = Some (VStr now) /\
    (forall k, k <> "updated_at" ->
               (<["updated_at" := VStr now]> fields) !! k = fields !! k) /\
    o = Returned (no_error answer).

(** Every update payload of the trace carries an [updated_at]. *)
Definition every_update_stamped (tr : Trace) : Prop :=
  Forall (fun q => forall payload : Obj,
                     update_payload q = Some payload -> is_Some (payload !! "updated_at"))
         (requests tr).

(** No update payload and no inserted row of the trace carries one. *)
Definition no_write_stamped (tr : Trace) : Prop :=
  Forall (fun q =>
            (forall payload : Obj,
               update_payload q = Some payload -> payload !! "updated_at" = None) /\
            Forall (fun row : Obj => row !! "updated_at" = None) (insert_rows q))
         (requests tr).

(** A caller passes an [updated_at] of its own: it is overwritten. *)
Definition stale_fields : Obj :=
  obj_lit [("about_me", Some (VStr "hello"));
           ("updated_at", Some (VStr "1999-01-01T00:00:00.000Z"))].

(** The shape of an execution of a creation function inserting into
    [tbl]: the current profile is looked up first; without one the function
    throws the authentication error and issues no insert; with one it
    issues one insert, and an error reported by the backend is thrown to
    the caller with its message. *)
Definition creation_outcome (c : Client) (tbl : string) (tr : Trace)
    (o : Outcome (option Obj)) : Prop :=
  exists (tr1 tr2 : Trace) (profile : option Obj),
    tr = (tr1 ++ tr2)%list /\
    Exec (getCurrentUserProfile (Some c)) tr1 (Returned profile) /\
    match profile with
    | None =>
        Forall (fun q => is_insert q = false) (requests tr) /\
        o = Thrown (Error "User not authenticated")
    | Some _ =>
        exists (q : Request) (answer : Result Obj) (rest : Trace),
          tr2 = ev (AwaitSingle q) answer :: rest /\
          table q = tbl /\ is_insert q = true /\ requests rest = [] /\
          match error answer with
          | Some e => o = Thrown (Error (message e))
          | None => o = Returned (data answer)
          end
    end.

Definition key_le (a b : Z * Z * string) : Prop :=
  a.1.1 < b.1.1 \/
  (a.1.1 = b.1.1 /\ (a.1.2 < b.1.2 \/ (a.1.2 = b.1.2 /\ String.le a.2 b.2))).

(** The query of a list endpoint as the specification describes it: a read that
    filters by equality on one column and sorts by creation time,
    latest first. *)
Definition list_query_shape (q : Request) : Prop :=
  verb q = Select "*" /\
  (exists column v, filters q = [(column, v)]) /\
  ordering q = [("created_at", false)].

Definition one_list_query (p : Prog (list Obj)) : Prop :=
  forall tr o, Exec p tr o -> exists q, requests tr = [q] /\ list_query_shape q.

(** The shape of an execution of a list endpoint: exactly one request, a
    read of [tbl] under the filters [fs], sorted by [created_at]
    descending; absent an error its rows are what the endpoint returns. *)
Definition issues_one_query (p : Prog (list Obj)) (tbl : string)
    (fs : list (string * Value)) : Prop :=
  forall tr o, Exec p tr o ->
    exists (answer : Result (list Obj)) (logs : Trace),
      tr = ev (Await {| table := tbl; verb := Select "*"; filters := fs;
                        ordering := [("created_at", false)];
                        returning := false |}) answer :: logs /\
      requests logs = [] /\
      (error answer = None -> o = Returned (default [] (data answer))).

Fixpoint contains (c : ascii) (s : string) : bool :=
  match s with
  | EmptyString => false
  | String a s' => Ascii.eqb a c || contains c s'
  end.

(** The shape of an execution of [uploadImage file userId] into [bucket]:
    the clock and the random source are read, then one upload is issued,
    with upsert off, under the key made of the owner id, a slash, the time
    in milliseconds, a hyphen, the random digits, a dot and the last
    dot-separated piece of the file name; when the upload succeeds its
    stored path is returned. *)
Definition upload_shape (file : File) (userId bucket : string) (tr : Trace)
    (o : Outcome (option string)) : Prop :=
  exists (now : Z) (rnd ext : string) (answer : Result string) (logs : Trace),
    pop (split "." (file_name file)) = Some (VStr ext) /\
    tr = ev DateNow now :: ev MathRandomBase36 rnd ::
         ev (StorageUpload bucket
               (userId +:+ "/" +:+ pretty now +:+ "-" +:+ substring_from 2 rnd
                  +:+ "." +:+ ext)
               file "3600" false) answer :: logs /\
    backend_calls logs = [] /\
    (forall path, error answer = None -> data answer = Some path ->
                  o = Returned (Some path)) /\
    (error answer <> None -> o = Returned None).

Definition demo_file : File :=
  {| file_name := "holiday.2024.png"; file_type := "image/png"; file_size := 204800 |}.

(** [ext] is what follows the last dot of [name]. *)
Definition after_last_dot (name ext : string) : Prop :=
  exists stem, name = stem +:+ "." +:+ ext /\ contains "." ext = false.

(** The key as the specification states it for every file: its extension
    is what follows the last dot of the file name. *)
Definition stated_upload_key (file : File) (userId : string) (tr : Trace) : Prop :=
  exists (bucket : string) (now : Z) (rnd ext : string) (answer : Result string),
    after_last_dot (file_name file) ext /\
    In (ev (StorageUpload bucket
              (userId +:+ "/" +:+ pretty now +:+ "-" +:+ substring_from 2 rnd
                 +:+ "." +:+ ext)
              file "3600" false) answer) tr.

(** A file whose name has no dot. *)
Definition readme_file : File :=
  {| file_name := "README"; file_type := "text/plain"; file_size := 1024 |}.

(** The test of the submit handler, in words: the trimmed
    string is not empty, the string has exactly seven code units, and it
    consists only of digits. *)
Definition username_accepted (s : string) : Prop :=
  trim s <> "" /\ String.length s = 7%nat /\ all_digits s = true.

Definition typing (s : string) : State :=
  {| userPins := []; loading := false; newUsername := s; isEditingUsername := true;
     isAuthenticated := true; userProfile := Some demo_profile;
     isUploadingProfilePicture := false; isEditingProfile := false;
     editAboutMe := ""; editContactInfo := ""; savingProfile := false;
     profilePictureInputRef := true |}.

Definition no_profiles_query (tr : Trace) : Prop :=
  Forall (fun q => table q <> "profiles") (requests tr).

(** The records passed to [setUserProfile]. *)
Definition profiles_set (tr : Trace) : list (option Obj) :=
  omap (fun e => match e with SetState (setUserProfile p) => Some p | _ => None end)
       (map effect_of tr).

(** A signed-in user opens the modal on the guest 1234567. *)
Definition guest_view : UserProfileModalProps :=
  {| isOpen := true; username := "1234567"; currentUser := "alice";
     isCurrentUserAdmin := false |}.

(** The shape of an execution of [fetchProfileData] on a guest username:
    the pins of that username are the only thing asked of the backend
    (nothing at all with the facade absent), and the profile put in the
    state is the guest record, built from two readings of the clock. *)
Definition guest_fetch_shape (supabase : option Client) (u : string) (tr : Trace)
    (o : Outcome unit) : Prop :=
  no_profiles_query tr /\
  backend_calls tr
  = match supabase with
    | Some _ => [Await {| table := "pins"; verb := Select "*";
                          filters := [("username", VStr u)];
                          ordering := [("created_at", false)];
                          returning := false |}]
    | None => []
    end /\
  (exists created updated : string,
     omap iso_reading tr = [created; updated] /\
     profiles_set tr
     = [Some (obj_lit [("id", Some VNull); ("username", Some (VStr u));
                       ("role", Some (VStr "guest"));
                       ("created_at", Some (VStr created));
                       ("updated_at", Some (VStr updated));
                       ("contact_info", Some VNull); ("about_me", Some VNull);
                       ("profile_picture_url", Some VNull);
                       ("banner_url", Some VNull)])]) /\
  o = Returned tt.

Abbreviation by_id postId := [("id", VStr postId)].

(** The table after the update [{view_count: v}] of the rows with that id. *)
Definition bump (postId : string) (v : Value) (rows : list Obj) : list Obj :=
  map (fun row : Obj =>
         if matches (by_id postId) row then {["view_count" := v]} ∪ row else row) rows.

(** What two executions of [getBlogPost postId] come to on the reference
    backend, [post] being the stored row and [n] its view count.  Under
    [sched] the two tasks return [seen1] and [seen2], write the counts
    [written], and leave the count [stored] in the table. *)
Definition two_readers (c : Client) (w : World) (postId : string) (sched : list nat)
    (seen1 seen2 : Obj) (written : list Value) (stored : Obj) : Prop :=
  let x := concurrently ref_handler sched
             [getBlogPost (Some c) postId; getBlogPost (Some c) postId] w in
  map finished x.1.1 = [Some (Returned (Some seen1)); Some (Returned (Some seen2))] /\
  omap (fun q => update_payload q ≫= (.!! "view_count")) (requests x.2) = written /\
  List.filter (matches (by_id postId)) <$> (db x.1.2 !! "blog_posts") = Some [stored].

(** The calls of the picture flow, by stage; the calls of the re-fetch
    are the reads [fetchProfileData] makes. *)
Inductive Stage : Type := Upload | UrlFetch | ProfileUpdate | Refetch.

Definition stage_of (e : Effect) : option Stage :=
  match e with
  | StorageUpload _ _ _ _ _ => Some Upload
  | StorageGetPublicUrl _ _ => Some UrlFetch
  | Await q => match verb q with Update _ => Some ProfileUpdate | _ => Some Refetch end
  | AwaitSingle _ | AuthGetUser => Some Refetch
  | _ => None
  end.

Definition stages (tr : Trace) : list Stage := omap stage_of (map effect_of tr).

(** The answer makes its step fail: an upload that reports an error or
    yields no path, a profile update that reports an error. *)
Definition step_failed (x : Event) : bool :=
  match x with
  | existT e r =>
      match e return Resp e -> bool with
      | StorageUpload _ _ _ _ _ =>
          fun r => match error r, data r with
                   | None, Some path => String.eqb path ""
                   | _, _ => true
                   end
      | Await q =>
          fun r => match verb q, error r with
                   | Update _, Some _ => true
                   | _, _ => false
                   end
      | _ => fun _ => false
      end r
  end.

(** The handler's entry test: signed in, a profile loaded, not a guest. *)
Definition guard_passes (props : UserProfileModalProps) (st : State) : Prop :=
  isAuthenticated st = true /\ userProfile st <> None /\ isGuestUser props = false.



(** The stage at which the flow fails, if it does: the stage of the first
    answer that makes its step fail. *)
Definition failed_stage (tr : Trace) : option Stage :=
  x ← List.find step_failed tr; stage_of (effect_of x).


Definition own_view : UserProfileModalProps :=
  {| isOpen := true; username := "alice"; currentUser := "alice";
     isCurrentUserAdmin := false |}.


Definition six_megabytes : File :=
  {| file_name := "panorama.png"; file_type := "image/png";
     file_size := 6 * 1024 * 1024 |}.

(** The small deployment without its bucket: every upload fails. *)
Definition demo_world_no_bucket : World :=
  set_storage ∅ demo_world.

(** ** The rest of the two files *)

(** The state updates of a trace, in order. *)
Definition ui_updates (tr : Trace) : list StateUpdate :=
  omap (fun e => match e with SetState u => Some u | _ => None end) (map effect_of tr).

(** The shape of an execution of [getCurrentUserProfile]: the session is
    asked for its user; without one null is returned; with one the row of
    [profiles] under that user's id is asked for with [.single()], and the
    row is returned unless the answer carries an error. *)
Definition profile_lookup_shape (tr : Trace) (o : Outcome (option Obj)) : Prop :=
  exists (user : option string) (rest : Trace),
    tr = ev (ConsoleLog "Checking for authenticated user...") tt
         :: ev AuthGetUser user :: rest /\
    match user with
    | None => backend_calls rest = [] /\ o = Returned None
    | Some user_id =>
        exists (answer : Result Obj) (logs : Trace),
          rest = ev (ConsoleLog "User authenticated, fetching profile for:") tt
                 :: ev (AwaitSingle {| table := "profiles"; verb := Select "*";
                                       filters := [("id", VStr user_id)];
                                       ordering := []; returning := false |}) answer
                 :: logs /\
          backend_calls logs = [] /\
          o = Returned (match error answer with Some _ => None | None => data answer end)
    end.

(** The shape of an execution of [getProfileByUsername]: one unordered
    read of [profiles] by username, without [.single()]; the first row of
    the answer is returned, null when there is an error or no row. *)
Definition profile_by_username_shape (username : string) (tr : Trace)
    (o : Outcome (option Obj)) : Prop :=
  exists (answer : Result (list Obj)) (logs : Trace),
    tr = ev (Await {| table := "profiles"; verb := Select "*";
                      filters := [("username", VStr username)];
                      ordering := []; returning := false |}) answer :: logs /\
    backend_calls logs = [] /\
    o = Returned (match error answer with
                  | Some _ => None
                  | None => head (default [] (data answer))
                  end).

(** What a list endpoint with an error check returns for an answer: the
    empty list on an error, whatever rows come with it. *)
Definition rows_unless_error (answer : Result (list Obj)) : list Obj :=
  match error answer with
  | Some _ => []
  | None => default [] (data answer)
  end.

(** The execution is one read, answered by [answer], and returns [rows]. *)
Definition one_read_returning (tr : Trace) (o : Outcome (list Obj))
    (rows : Result (list Obj) -> list Obj) : Prop :=
  exists (q : Request) (answer : Result (list Obj)) (logs : Trace),
    tr = ev (Await q) answer :: logs /\
    backend_calls logs = [] /\
    o = Returned (rows answer).

(** The shape of an execution of a delete function: one delete of the
    rows of [tbl] under that id, nothing read back, and the result tells
    whether the answer was free of an error. *)
Definition delete_shape (tbl id : string) (tr : Trace) (o : Outcome bool) : Prop :=
  exists answer : Result (list Obj),
    tr = [ev (Await {| table := tbl; verb := Delete; filters := [("id", VStr id)];
                       ordering := []; returning := false |}) answer] /\
    o = Returned (no_error answer).

(** The rows of the inserts of a trace. *)
Definition inserted_rows (tr : Trace) : list Obj :=
  concat (map insert_rows (requests tr)).

(** The row [createMarketplaceItem] inserts for the profile [profile]. *)
Definition marketplace_row (profile : Obj) (title description : string) (price : Z)
    (images storagePaths : list string) (row : Obj) : Prop :=
  row !! "seller_username" = profile !! "username" /\
  row !! "title" = Some (VStr (trim title)) /\
  row !! "description" = Some (VStr (trim description)) /\
  row !! "price" = Some (VNum price) /\
  row !! "images" = Some (VArr images) /\
  row !! "storage_paths" = Some (VArr storagePaths) /\
  row !! "is_active" = Some (VBool true) /\
  row !! "id" = None /\ row !! "created_at" = None.

(** The row [createBlogPost] inserts for the profile [profile]. *)
Definition blog_post_row (profile : Obj) (title content : string)
    (isPublished : option bool) (row : Obj) : Prop :=
  row !! "author_username" = profile !! "username" /\
  row !! "title" = Some (VStr (trim title)) /\
  row !! "content" = Some (VStr (trim content)) /\
  row !! "is_published" = Some (VBool (default false isPublished)) /\
  row !! "id" = None /\ row !! "created_at" = None /\ row !! "view_count" = None.

(** At most one row is inserted, and it is made, as [made] tells, for a
    profile that the trace shows as the answer of a read of profiles. *)
Definition inserts_row_for_profile (tr : Trace) (made : Obj -> Obj -> Prop) : Prop :=
  (length (inserted_rows tr) <= 1)%nat /\
  forall row : Obj, In row (inserted_rows tr) ->
    exists (q : Request) (answer : Result Obj) (profile : Obj),
      In (ev (AwaitSingle q) answer) tr /\
      table q = "profiles" /\ data answer = Some profile /\ error answer = None /\
      made profile row.

(** The shape of an execution of [getImageUrl]: one call that builds the
    URL, none over the network. *)
Definition public_url_shape (bucket path : string) (tr : Trace) (o : Outcome string)
  : Prop :=
  exists url : string,
    tr = [ev (StorageGetPublicUrl bucket path) url] /\
    network_calls tr = [] /\ o = Returned url.

(** The shape of an execution of [deleteImage]: one removal of that one
    path, and the result tells whether the answer was free of an error. *)
Definition remove_shape (bucket path : string) (tr : Trace) (o : Outcome bool) : Prop :=
  exists answer : Result (list string),
    tr = [ev (StorageRemove bucket [path]) answer] /\
    o = Returned (no_error answer).

(** The item as [updateMarketplaceItem(itemId, {is_active: false})] leaves
    it at time [now]. *)
Definition deactivated (now itemId : string) (item : Obj) : Obj :=
  if matches (by_id itemId) item
  then <["updated_at" := VStr now]> (<["is_active" := VBool false]> item)
  else item.

Definition demo_item (id seller : string) (active : bool) : Obj :=
  obj_lit [("id", Some (VStr id)); ("seller_username", Some (VStr seller));
           ("is_active", Some (VBool active));
           ("created_at", Some (VStr "2024-01-05T10:00:00Z"))].

(** The small deployment with two items on the market. *)
Definition demo_market : World :=
  set_db (<["marketplace_items" := [demo_item "i1" "alice" true;
                                    demo_item "i2" "bob" true]]> (db demo_world))
         demo_world.

(** The shape of an execution of [checkAuthStatus]: the session is asked
    for its user and [isAuthenticated] is set to whether there is one; only
    then is the current user's profile looked up, and whatever the lookup
    returns, null included, is put in [userProfile]. *)
Definition auth_check_shape (c : Client) (tr : Trace) (o : Outcome unit) : Prop :=
  o = Returned tt /\
  exists (user : option string) (rest : Trace),
    tr = ev AuthGetUser user
         :: ev (SetState (setIsAuthenticated
                            (match user with Some _ => true | None => false end))) tt
         :: rest /\
    match user with
    | None => rest = []
    | Some _ =>
        exists (tr1 : Trace) (profile : option Obj),
          rest = (tr1 ++ [ev (SetState (setUserProfile profile)) tt])%list /\
          Exec (getCurrentUserProfile (Some c)) tr1 (Returned profile)
    end.

(** The values given to [setLoading], in order. *)
Definition loading_updates (tr : Trace) : list bool :=
  omap (fun u => match u with setLoading b => Some b | _ => None end) (ui_updates tr).

(** The values given to the two edit fields, in order. *)
Definition edit_field_updates (tr : Trace) : list Value :=
  omap (fun u => match u with
                 | setEditAboutMe v | setEditContactInfo v => Some v
                 | _ => None
                 end) (ui_updates tr).

(** What [fetchProfileData] always does: it returns, switches [loading]
    on first and off last and nowhere in between, and sets the pins once
    and the profile once. *)
Definition loading_bracket (tr : Trace) (o : Outcome unit) : Prop :=
  o = Returned tt /\
  head (ui_updates tr) = Some (setLoading true) /\
  last (ui_updates tr) = Some (setLoading false) /\
  loading_updates tr = [true; false] /\
  length (omap (fun u => match u with setUserPins p => Some p | _ => None end)
               (ui_updates tr)) = 1%nat /\
  length (profiles_set tr) = 1%nat.








(** The answer of an upload, with its bucket. *)
Definition upload_answer (x : Event) : option (string * Result string) :=
  match x with
  | existT (StorageUpload bucket _ _ _ _) r => Some (bucket, r)
  | _ => None
  end.


Definition upload_answers (tr : Trace) : list (string * Result string) :=
  omap upload_answer tr.





(** The edit form holds text with blanks around it, and blanks only. *)
Definition editing_state : State :=
  {| userPins := []; loading := false; newUsername := ""; isEditingUsername := false;
     isAuthenticated := true; userProfile := Some demo_profile;
     isUploadingProfilePicture := false; isEditingProfile := true;
     editAboutMe := "  Gardener  "; editContactInfo := "   "; savingProfile := false;
     profilePictureInputRef := true |}.

(** *** The handlers that only act on the page

    [handleSignupClick], [handleProfilePictureClick] and
    [handleDirectMessage] await nothing and read no answer: each is the
    list of the actions it performs, in order. *)
Inductive UiAction : Type :=
  | UiAlert (msg : string)                            (* [alert(msg)] *)
  | UiOnClose                                         (* [onClose()] *)
  | UiOnOpenChatWindow (recipientUsername : option string)
  | UiDispatchEvent (type : string)    (* [window.dispatchEvent(new CustomEvent(type))] *)
  | UiClickFileInput.                  (* [profilePictureInputRef.current.click()] *)

Definition handleSignupClick : list UiAction :=
  [UiOnClose; UiDispatchEvent "openAuth"].

Definition handleProfilePictureClick (props : UserProfileModalProps) (st : State)
  : list UiAction :=
  if isOwnProfile props && isAuthenticated st && negb (isGuestUser props)
     && profilePictureInputRef st
  then [UiClickFileInput]
  else [].

Definition handleDirectMessage (props : UserProfileModalProps) (st : State)
  : list UiAction :=
  if negb (isAuthenticated st) then [UiAlert "Please sign in to send direct messages"]
  else if isOwnProfile props then [UiAlert "You cannot message yourself"]
  else [UiOnOpenChatWindow (Some (username props)); UiOnClose].

(** The conditions under which the page offers the handlers.  The picture
    button carries
    [disabled={!isOwnProfile || !isAuthenticated || isUploadingProfilePicture || isGuestUser}],
    the Message button is rendered under
    [!isOwnProfile && isAuthenticated && !isGuestUser], and the
    Update Username button carries [disabled={!newUsername.trim()}]. *)
Definition pictureButtonDisabled (props : UserProfileModalProps) (st : State) : bool :=
  negb (isOwnProfile props) || negb (isAuthenticated st)
  || isUploadingProfilePicture st || isGuestUser props.

Definition messageButtonShown (props : UserProfileModalProps) (st : State) : bool :=
  negb (isOwnProfile props) && isAuthenticated st && negb (isGuestUser props).

Definition usernameSubmitDisabled (st : State) : bool :=
  String.eqb (trim (newUsername st)) "".

(** A connection parameter that is absent or empty. *)
Definition missing (x : option string) : Prop := x = None \/ x = Some "".

(** A library that refuses what is not an HTTP or HTTPS URL. *)
Definition demo_createClient (url key : string) : Outcome Client :=
  if startsWith url "http://" || startsWith url "https://"
  then Returned {| supabaseUrl := url; supabaseAnonKey := key |}
  else Thrown (Error "Invalid supabaseUrl: Must be a valid HTTP or HTTPS URL.").

(** The values given to [setUserPins], in order. *)
Definition pins_updates (tr : Trace) : list (list Obj) :=
  omap (fun u => match u with setUserPins pins => Some pins | _ => None end)
       (ui_updates tr).

(** A signed-in user opens the modal on bob. *)
Definition bob_view : UserProfileModalProps :=
  {| isOpen := true; username := "bob"; currentUser := "alice";
     isCurrentUserAdmin := false |}.

(** What [uploadImage] returns for the answer of its upload. *)
Definition path_unless_failed (answer : Result string) : option string :=
  match error answer, data answer with
  | None, Some path => Some path
  | _, _ => None
  end.

(** What opening the modal comes to under a schedule: both tasks finish
    and [userProfile] is set to [first], then to [second], which stays. *)
Definition opened_with (c : Client) (props : UserProfileModalProps) (w : World)
    (sched : list nat) (first second : option Obj) : Prop :=
  let x := concurrently ref_handler sched (useEffect_open (Some c) props) w in
  map finished x.1.1 = [Some (Returned tt); Some (Returned tt)] /\
  profiles_set x.2 = [first; second].

Definition demo_bob_profile : Obj :=
  obj_lit [("id", Some (VStr "u2")); ("username", Some (VStr "bob"));
           ("role", Some (VStr "user")); ("about_me", Some (VStr "Cyclist"))].

(** The small deployment with bob's profile beside alice's. *)
Definition demo_world_with_bob : World :=
  set_db (<["profiles" := [demo_profile; demo_bob_profile]]> (db demo_world)) demo_world.

(** What a list endpoint returns on the reference backend: the rows of
    [kept], latest first. *)
Definition lists_latest_first (o : Outcome (list Obj)) (kept : list Obj) : Prop :=
  exists posts : list Obj,
    o = Returned posts /\ posts ≡ₚ kept /\ StronglySorted (row_le "created_at" false) posts.

(** * Properties *)

(** ** Executions and runs *)

(** A run against an environment is an execution. *)
Lemma run_Exec {W A : Type} (h : Handler W) (p : Prog A) (w : W) :
  Exec p (trace_of (run h p w)) (outcome_of (run h p w)).
Proof.
  revert w. induction p as [a|x|e k IH]; intros w; simpl; [done..|].
  destruct (h e w) as [r w1]. specialize (IH r w1).
  destruct (run h (k r) w1) as [[o w2] tr]. unfold trace_of, outcome_of in *.
  simpl in *. eauto.
Qed.

(** Symbolic execution of a hypothesis [H : Exec p tr o]: each call of [p]
    contributes its event to [tr], each test on an answer splits the goal. *)
Ltac exec_cbn H :=
  cbn [Exec bind try_catch try_finally call] in H.

Ltac exec_inv H :=
  repeat (exec_cbn H;
    lazymatch type of H with
    | ex _ =>
        let r := fresh "r" in
        let tr := fresh "tr" in
        destruct H as (r & tr & -> & H)
    | _ /\ _ =>
        let E1 := fresh "E" in
        let E2 := fresh "E" in
        destruct H as [E1 E2]; simplify_eq
    | Exec ?p _ _ =>
        match p with
        | context [match ?x with _ => _ end] => destruct x eqn:?
        end
    end).

(** ** The absent facade *)

(** The facade is [null] as soon as one connection parameter is absent or
    empty, whatever the library would do. *)
Lemma supabase_absent (createClient : string -> string -> Outcome Client)
    (url key : option string) :
  env_or_empty url = "" \/ env_or_empty key = "" ->
  supabase_of_env createClient url key = Returned None.
Proof.
  unfold supabase_of_env. intros [-> | ->]; simpl; [done|].
  by rewrite andb_false_r.
Qed.

(** With both parameters present the module is what the library's call
    comes to. *)
Lemma supabase_present (createClient : string -> string -> Outcome Client)
    (url key : option string) :
  env_or_empty url <> "" -> env_or_empty key <> "" ->
  supabase_of_env createClient url key
  = match createClient (env_or_empty url) (env_or_empty key) with
    | Returned client => Returned (Some client)
    | Thrown x => Thrown x
    end.
Proof.
  unfold supabase_of_env. intros Hu Hk.
  apply String.eqb_neq in Hu, Hk. by rewrite Hu, Hk.
Qed.

(** C1. With the facade absent every data-access and storage function
    returns its fallback without throwing and without any call on the
    backend: the empty list for the list fetches, null for the
    single-record fetches, the creations and the upload, false for the
    updates and deletions, the empty string for [getImageUrl]. *)
Theorem null_facade_fallbacks :
  (forall username, falls_back (getUserPins None username) []) /\
  falls_back (getMarketplaceItems None) [] /\
  (forall username, falls_back (getUserMarketplaceItems None username) []) /\
  (forall publishedOnly, falls_back (getBlogPosts None publishedOnly) []) /\
  (forall username, falls_back (getUserBlogPosts None username) []) /\
  falls_back (getCurrentUserProfile None) None /\
  (forall username, falls_back (getProfileByUsername None username) None) /\
  (forall postId, falls_back (getBlogPost None postId) None) /\
  (forall title description price images storagePaths,
     falls_back (createMarketplaceItem None title description price images storagePaths)
       None) /\
  (forall title content isPublished,
     falls_back (createBlogPost None title content isPublished) None) /\
  (forall file userId bucketName, falls_back (uploadImage None file userId bucketName) None) /\
  (forall userId profileData, falls_back (updateUserProfile None userId profileData) false) /\
  (forall itemId updates, falls_back (updateMarketplaceItem None itemId updates) false) /\
  (forall itemId, falls_back (deleteMarketplaceItem None itemId) false) /\
  (forall postId updates, falls_back (updateBlogPost None postId updates) false) /\
  (forall postId, falls_back (deleteBlogPost None postId) false) /\
  (forall path bucketName, falls_back (deleteImage None path bucketName) false) /\
  (forall path bucketName, falls_back (getImageUrl None path bucketName) "") /\
  (forall createClient, supabase_of_env createClient None None = Returned None).
Proof.
  repeat split; intros; intros W h w; reflexivity.
Qed.

(** ** Reading a post *)

(** An integer of at most 53 bits is a double. *)
Lemma to_double_exact (z : Z) : Z.abs z <= 2 ^ 53 -> to_double z = z.
Proof.
  intros H. unfold to_double.
  destruct (Z.eq_dec (Z.abs z) (2 ^ 53)) as [E|E].
  - destruct (Z.abs_eq_or_opp z) as [E'|E']; rewrite E' in E.
    + subst z. reflexivity.
    + apply (f_equal Z.opp) in E. rewrite Z.opp_involutive in E. subst z. reflexivity.
  - assert (Z.log2 (Z.abs z) < 53) as Hl.
    { destruct (Z.eq_dec (Z.abs z) 0) as [->|Hz]; [reflexivity|].
      apply Z.log2_lt_pow2; lia. }
    destruct (Z.leb_spec (Z.log2 (Z.abs z) - 52) 0); [reflexivity|lia].
Qed.

(** On a safe count [+ 1] is exact. *)
Lemma js_plus_one_safe (n : Z) :
  safe_count n -> js_plus_one (Some (VNum n)) = VNum (n + 1).
Proof.
  unfold safe_count. intros H. cbn [js_plus_one]. rewrite to_double_exact; [done|lia].
Qed.

(** Beyond, it is not: at 2^53 the sum is rounded back to 2^53, and the
    gaps widen further on. *)
Example js_plus_one_rounds :
  js_plus_one (Some (VNum (2 ^ 53))) = VNum (2 ^ 53) /\
  js_plus_one (Some (VNum (2 ^ 53 + 2))) = VNum (2 ^ 53 + 4) /\
  js_plus_one (Some (VNum (- 2 ^ 53))) = VNum (- 2 ^ 53 + 1).
Proof. repeat split; vm_compute; reflexivity. Qed.

(** C5. With the facade present [getBlogPost] first fetches the post;
    exactly when the fetch comes back with a row it issues one separate
    update that sets the row's view_count to the fetched value plus 1 (the
    sum as the source computes it, which is the next integer for every
    count within the safe integers), and it returns the fetched row, which
    carries the count as it was read; when the fetch fails it issues no
    update and returns null. *)
Theorem getBlogPost_read_then_increment
    (c : Client) (postId : string) (tr : Trace) (o : Outcome (option Obj)) :
  Exec (getBlogPost (Some c) postId) tr o -> read_then_increment postId tr o.
Proof.
  intros H. unfold getBlogPost in H. exec_inv H.
  - eexists _, _. split; [reflexivity|].
    match goal with E : error _ = _ |- _ => rewrite E end. done.
  - eexists _, _. split; [reflexivity|].
    match goal with E : error _ = _ |- _ => rewrite E end.
    match goal with E : data _ = _ |- _ => rewrite E end.
    split; [|split; [|done]].
    + eexists. unfold obj_lit. cbn [foldr]. rewrite insert_empty. reflexivity.
    + intros n -> Hn. by apply js_plus_one_safe.
  - eexists _, _. split; [reflexivity|].
    match goal with E : error _ = _ |- _ => rewrite E end.
    match goal with E : data _ = _ |- _ => rewrite E end. done.
Qed.

Lemma getBlogPost_read_then_increment_witness :
  let x := run ref_handler (getBlogPost (Some demo_client) "p1") demo_world in
  Exec (getBlogPost (Some demo_client) "p1") (trace_of x) (outcome_of x) /\
  read_then_increment "p1" (trace_of x) (outcome_of x).
Proof.
  intros x. split; [apply run_Exec|].
  apply (getBlogPost_read_then_increment demo_client "p1"). apply run_Exec.
Defined.

(** On the small deployment: the caller sees 10 views, the table holds 11. *)
Example getBlogPost_demo :
  let x := run ref_handler (getBlogPost (Some demo_client) "p1") demo_world in
  outcome_of x = Returned (Some (demo_post "p1" 10)) /\
  db (world_of x) !! "blog_posts" = Some [demo_post "p1" 11].
Proof. split; vm_compute; reflexivity. Qed.

(** ** Writes and [updated_at] *)

(** The view-count update of [getBlogPost] writes no [updated_at]. *)
Lemma view_count_update_not_stamped :
  ~ every_update_stamped
      (trace_of (run ref_handler (getBlogPost (Some demo_client) "p1") demo_world)).
Proof.
  intros H. vm_compute in H.
  inversion H as [|? ? _ H2]. inversion H2 as [|? ? H3 _].
  destruct (H3 _ eq_refl) as [v Hv]. vm_compute in Hv. discriminate.
Qed.

Ltac trace_requests :=
  cbn [requests omap map effect_of projT1 ev request_of list_omap fmap list_fmap].

(** C2, amended. Each of the three update functions reads the clock and
    writes the caller's fields with [updated_at] overwritten by that
    reading, so a caller-supplied [updated_at] never reaches the database;
    the view-count update inside [getBlogPost] and the inserts of the two
    creation functions carry no [updated_at]. *)
Theorem update_paths_stamp_updated_at :
  (forall c userId profileData tr o,
     Exec (updateUserProfile (Some c) userId profileData) tr o ->
     stamped_update "profiles" userId profileData tr o) /\
  (forall c itemId updates tr o,
     Exec (updateMarketplaceItem (Some c) itemId updates) tr o ->
     stamped_update "marketplace_items" itemId updates tr o) /\
  (forall c postId updates tr o,
     Exec (updateBlogPost (Some c) postId updates) tr o ->
     stamped_update "blog_posts" postId updates tr o) /\
  (forall c postId tr o,
     Exec (getBlogPost (Some c) postId) tr o -> no_write_stamped tr) /\
  (forall c title description price images storagePaths tr o,
     Exec (createMarketplaceItem (Some c) title description price images storagePaths) tr o ->
     no_write_stamped tr) /\
  (forall c title content isPublished tr o,
     Exec (createBlogPost (Some c) title content isPublished) tr o ->
     no_write_stamped tr).
Proof.
  repeat apply conj.
  1-3: intros c id fields tr o H;
       unfold updateUserProfile, updateMarketplaceItem, updateBlogPost in H;
       exec_inv H; eexists _, _;
       (split; [reflexivity|]); (split; [apply lookup_insert_eq|]); (split; [|done]);
       intros k Hk; by apply lookup_insert_ne.
  - intros c postId tr o H. unfold getBlogPost in H. exec_inv H.
    all: unfold no_write_stamped; trace_requests; repeat constructor.
    all: intros payload [= <-]; by simplify_map_eq.
  - intros c title description price images storagePaths tr o H.
    unfold createMarketplaceItem, getCurrentUserProfile in H. exec_inv H.
    all: unfold no_write_stamped; trace_requests; repeat constructor.
    all: try (intros payload [=]).
    all: unfold obj_lit; cbn [foldr].
    all: destruct (_ !! "username"); by simplify_map_eq.
  - intros c title content isPublished tr o H.
    unfold createBlogPost, getCurrentUserProfile in H. exec_inv H.
    all: unfold no_write_stamped; trace_requests; repeat constructor.
    all: try (intros payload [=]).
    all: unfold obj_lit; cbn [foldr].
    all: destruct (_ !! "username"); by simplify_map_eq.
Qed.

Lemma update_paths_stamp_updated_at_witness :
  let x := run ref_handler (updateUserProfile (Some demo_client) "u1" stale_fields)
             demo_world in
  Exec (updateUserProfile (Some demo_client) "u1" stale_fields) (trace_of x) (outcome_of x) /\
  stamped_update "profiles" "u1" stale_fields (trace_of x) (outcome_of x).
Proof.
  intros x. split; [apply run_Exec|].
  apply (proj1 update_paths_stamp_updated_at demo_client). apply run_Exec.
Defined.

Example updateUserProfile_demo :
  let x := run ref_handler (updateUserProfile (Some demo_client) "u1" stale_fields)
             demo_world in
  outcome_of x = Returned true /\
  (fun rows : list Obj => (.!! "updated_at") <$> rows)
    <$> (db (world_of x) !! "profiles")
  = Some [Some (VStr "2024-02-02T00:00:00.000Z")].
Proof. split; vm_compute; reflexivity. Qed.

(** ** Sequencing and handlers *)

Lemma Exec_bind_inv {A B : Type} (p : Prog A) (f : A -> Prog B) (tr : Trace)
    (o : Outcome B) :
  Exec (bind p f) tr o ->
  (exists a tr1 tr2, tr = (tr1 ++ tr2)%list /\ Exec p tr1 (Returned a) /\ Exec (f a) tr2 o)
  \/ (exists x, Exec p tr (Thrown x) /\ o = Thrown x).
Proof.
  revert tr. induction p as [a|x|e k IH]; intros tr H; simpl in *.
  - left. exists a, [], tr. auto.
  - right. exists x. destruct H as [-> ->]. auto.
  - destruct H as (r & tr' & -> & H). destruct (IH r tr' H) as
      [(a & tr1 & tr2 & -> & H1 & H2) | (x & H1 & ->)].
    + left. exists a, (ev e r :: tr1), tr2. eauto 10.
    + right. exists x. eauto 10.
Qed.

Lemma Exec_try_catch_inv {A : Type} (p : Prog A) (h : Exn -> Prog A) (tr : Trace)
    (o : Outcome A) :
  Exec (try_catch p h) tr o ->
  (exists a, Exec p tr (Returned a) /\ o = Returned a)
  \/ (exists x tr1 tr2, tr = (tr1 ++ tr2)%list /\ Exec p tr1 (Thrown x) /\ Exec (h x) tr2 o).
Proof.
  revert tr. induction p as [a|x|e k IH]; intros tr H; simpl in *.
  - left. exists a. destruct H as [-> ->]. auto.
  - right. exists x, [], tr. auto.
  - destruct H as (r & tr' & -> & H). destruct (IH r tr' H) as
      [(a & H1 & ->) | (x & tr1 & tr2 & -> & H1 & H2)].
    + left. exists a. eauto 10.
    + right. exists x, (ev e r :: tr1), tr2. eauto 10.
Qed.

Lemma requests_app (tr1 tr2 : Trace) :
  requests (tr1 ++ tr2) = (requests tr1 ++ requests tr2)%list.
Proof. unfold requests. by rewrite map_app, omap_app. Qed.

(** ** The current user's profile *)

(** [getCurrentUserProfile] never throws, and all it asks of the database
    is one row of [profiles]. *)
Lemma getCurrentUserProfile_returns (s : option Client) (tr : Trace)
    (o : Outcome (option Obj)) :
  Exec (getCurrentUserProfile s) tr o ->
  (exists profile, o = Returned profile) /\
  Forall (fun q => table q = "profiles" /\ verb q = Select "*") (requests tr).
Proof.
  intros H. unfold getCurrentUserProfile in H. exec_inv H.
  all: split; [eauto|]; trace_requests; repeat constructor.
Qed.

(** ** Creating an item or a post *)

Lemma profile_lookup_inserts_nothing (s : option Client) (tr : Trace)
    (o : Outcome (option Obj)) :
  Exec (getCurrentUserProfile s) tr o ->
  Forall (fun q => is_insert q = false) (requests tr).
Proof.
  intros H. apply getCurrentUserProfile_returns in H as [_ H].
  eapply Forall_impl; [exact H|]. intros q [_ Hq]. unfold is_insert. by rewrite Hq.
Qed.

(** C3. With the facade present and no authenticated profile,
    [createMarketplaceItem] and [createBlogPost] throw the error
    'User not authenticated' and perform no insert; when the insert comes
    back with an error of the backend, that error is thrown to the caller,
    not mapped to a fallback value. *)
Theorem creation_requires_profile :
  (forall c title description price images storagePaths tr o,
     Exec (createMarketplaceItem (Some c) title description price images storagePaths) tr o ->
     creation_outcome c "marketplace_items" tr o) /\
  (forall c title content isPublished tr o,
     Exec (createBlogPost (Some c) title content isPublished) tr o ->
     creation_outcome c "blog_posts" tr o).
Proof.
  split.
  - intros c title description price images storagePaths tr o H.
    unfold createMarketplaceItem in H.
    apply Exec_try_catch_inv in H as [(a & H & ->) | (x & t1 & t2 & -> & H & Hh)];
      apply Exec_bind_inv in H as [(profile & tr1 & tr2 & -> & Hp & Hk) | (y & Hp & ?)];
      try (apply getCurrentUserProfile_returns in Hp as [[? [=]] _]; fail).
    + exists tr1, tr2, profile. split; [done|]. split; [done|].
      destruct profile as [profile|]; exec_inv Hk.
      eexists _, _, _. split; [reflexivity|]. repeat split.
      match goal with E : error _ = _ |- _ => by rewrite E end.
    + exists tr1, (tr2 ++ t2)%list, profile. split; [by rewrite app_assoc|].
      split; [done|]. destruct profile as [profile|]; exec_inv Hk; exec_inv Hh.
      * eexists _, _, _. split; [reflexivity|]. repeat split.
        match goal with E : error _ = _ |- _ => by rewrite E end.
      * split; [|done]. rewrite !requests_app, !Forall_app. split; [split|].
        -- by eapply profile_lookup_inserts_nothing.
        -- constructor.
        -- trace_requests. constructor.
  - intros c title content isPublished tr o H.
    unfold createBlogPost in H.
    apply Exec_try_catch_inv in H as [(a & H & ->) | (x & t1 & t2 & -> & H & Hh)];
      apply Exec_bind_inv in H as [(profile & tr1 & tr2 & -> & Hp & Hk) | (y & Hp & ?)];
      try (apply getCurrentUserProfile_returns in Hp as [[? [=]] _]; fail).
    + exists tr1, tr2, profile. split; [done|]. split; [done|].
      destruct profile as [profile|]; exec_inv Hk.
      eexists _, _, _. split; [reflexivity|]. repeat split.
      match goal with E : error _ = _ |- _ => by rewrite E end.
    + exists tr1, (tr2 ++ t2)%list, profile. split; [by rewrite app_assoc|].
      split; [done|]. destruct profile as [profile|]; exec_inv Hk; exec_inv Hh.
      * eexists _, _, _. split; [reflexivity|]. repeat split.
        match goal with E : error _ = _ |- _ => by rewrite E end.
      * split; [|done]. rewrite !requests_app, !Forall_app. split; [split|].
        -- by eapply profile_lookup_inserts_nothing.
        -- constructor.
        -- trace_requests. constructor.
Qed.

Lemma creation_requires_profile_witness :
  let p := createMarketplaceItem (Some demo_client) " Lamp " "Brass" 25 [] [] in
  let x := run ref_handler p demo_world_signed_out in
  Exec p (trace_of x) (outcome_of x) /\
  creation_outcome demo_client "marketplace_items" (trace_of x) (outcome_of x).
Proof.
  intros p x. split; [apply run_Exec|].
  apply (proj1 creation_requires_profile demo_client " Lamp " "Brass" 25 [] []).
  apply run_Exec.
Defined.

(** Signed out, the creation throws and the trace holds no insert; signed
    in, with no table to insert into, the backend's error is thrown. *)
Example createMarketplaceItem_demo :
  let p := createMarketplaceItem (Some demo_client) " Lamp " "Brass" 25 [] [] in
  outcome_of (run ref_handler p demo_world_signed_out)
    = Thrown (Error "User not authenticated") /\
  List.filter is_insert (requests (trace_of (run ref_handler p demo_world_signed_out))) = [] /\
  outcome_of (run ref_handler p demo_world) = Thrown (Error "relation does not exist").
Proof. repeat split; vm_compute; reflexivity. Qed.

(** ** Ordering of rows *)

Lemma key_leb_le (a b : Z * Z * string) : key_leb a b <-> key_le a b.
Proof.
  destruct a as [[r1 n1] s1], b as [[r2 n2] s2]. unfold key_leb, key_le, String.le.
  cbn [fst snd].
  rewrite orb_True, andb_True, orb_True, andb_True.
  rewrite !Is_true_true, !Z.ltb_lt, !Z.eqb_eq. by rewrite <- Is_true_true.
Qed.

Lemma key_le_total (a b : Z * Z * string) : key_le a b \/ key_le b a.
Proof.
  unfold key_le.
  destruct (Z.lt_total a.1.1 b.1.1) as [?|[?|?]]; [auto| |auto].
  destruct (Z.lt_total a.1.2 b.1.2) as [?|[?|?]]; [auto| |auto].
  destruct (String.le_total a.2 b.2); auto 10.
Qed.

Lemma key_le_trans (a b c : Z * Z * string) : key_le a b -> key_le b c -> key_le a c.
Proof.
  unfold key_le. intros Hab Hbc.
  assert (String.le a.2 b.2 -> String.le b.2 c.2 -> String.le a.2 c.2)
    by (intros; by etrans).
  destruct Hab as [?|[? [?|[? ?]]]], Hbc as [?|[? [?|[? ?]]]];
    first [left; lia | right; split; [lia|]; first [left; lia | right; split; [lia|auto]]].
Qed.

#[global] Instance row_le_total column ascending : Total (row_le column ascending).
Proof.
  intros a b. unfold row_le. destruct ascending; rewrite !key_leb_le; apply key_le_total.
Qed.

#[global] Instance row_le_trans column ascending : Transitive (row_le column ascending).
Proof.
  intros a b c. unfold row_le. destruct ascending; rewrite !key_leb_le; intros;
    by eapply key_le_trans.
Qed.

(** On timestamps [.order('created_at', {ascending: false})] puts the
    later one first. *)
Lemma row_le_created_at_desc (a b : Obj) (s t : string) :
  a !! "created_at" = Some (VStr s) -> b !! "created_at" = Some (VStr t) ->
  row_le "created_at" false a b <-> String.le t s.
Proof.
  intros Ha Hb. unfold row_le. rewrite Ha, Hb, key_leb_le. unfold key_le. simpl.
  intuition lia.
Qed.

Lemma matches_one (column : string) (v : Value) (row : Obj) :
  matches [(column, v)] row = true <-> row !! column = Some v.
Proof.
  unfold matches. simpl. rewrite andb_true_r. apply bool_decide_eq_true.
Qed.

(** ** The list endpoints *)

(** [getBlogPosts(false)] issues a query with no filter at all. *)
Lemma getBlogPosts_unfiltered :
  ~ one_list_query (getBlogPosts (Some demo_client) (Some false)).
Proof.
  intros H.
  destruct (H _ _ (run_Exec ref_handler _ demo_world)) as (q & Hq & _ & (col & v & Hf) & _).
  vm_compute in Hq. injection Hq as <-. discriminate Hf.
Qed.

Ltac one_query H :=
  exec_inv H; eexists _, _; (split; [reflexivity|]); (split; [reflexivity|]);
  first [ done | congruence ].

(** C4, amended. Every list endpoint issues exactly one query, sorted by
    creation time descending; [getUserPins], [getMarketplaceItems],
    [getUserMarketplaceItems] and [getUserBlogPosts] filter it by equality
    on one column, and [getBlogPosts] filters it on [is_published] when
    [publishedOnly] holds (its default) and not at all otherwise.  Against
    a backend that gives [.eq] and [.order] their meaning,
    [getUserPins(u)] returns the pins whose username is [u], and only
    those, each one no older than the ones after it. *)
Theorem list_endpoints_issue_one_query (c : Client) (username : string) :
  issues_one_query (getUserPins (Some c) username) "pins" [("username", VStr username)] /\
  issues_one_query (getMarketplaceItems (Some c)) "marketplace_items"
    [("is_active", VBool true)] /\
  issues_one_query (getUserMarketplaceItems (Some c) username) "marketplace_items"
    [("seller_username", VStr username)] /\
  issues_one_query (getUserBlogPosts (Some c) username) "blog_posts"
    [("author_username", VStr username)] /\
  (forall publishedOnly : option bool,
     issues_one_query (getBlogPosts (Some c) publishedOnly) "blog_posts"
       (if default true publishedOnly then [("is_published", VBool true)] else [])) /\
  (forall (w : World) (rows : list Obj),
     db w !! "pins" = Some rows ->
     exists pins : list Obj,
       outcome_of (run ref_handler (getUserPins (Some c) username) w) = Returned pins /\
       Forall (fun pin : Obj => pin !! "username" = Some (VStr username)) pins /\
       StronglySorted (row_le "created_at" false) pins /\
       pins ≡ₚ List.filter (matches [("username", VStr username)]) rows).
Proof.
  repeat apply conj.
  - intros tr o H. unfold getUserPins in H. one_query H.
  - intros tr o H. unfold getMarketplaceItems in H. one_query H.
  - intros tr o H. unfold getUserMarketplaceItems in H. one_query H.
  - intros tr o H. unfold getUserBlogPosts in H. one_query H.
  - intros [[|]|] tr o H; unfold getBlogPosts in H; cbn [default] in H; one_query H.
  - intros w rows Hrows.
    exists (merge_sort (row_le "created_at" false)
              (List.filter (matches [("username", VStr username)]) rows)).
    split; [|split; [|split]].
    + unfold getUserPins, outcome_of. cbn [run call bind ref_handler]. 
      cbn [sb.order sb.eq sb.select table]. unfold sb.from. rewrite Hrows. reflexivity.
    + apply Forall_forall. intros pin Hpin.
      rewrite merge_sort_Permutation in Hpin.
      apply list_elem_of_In, filter_In in Hpin as [_ Hpin]. by apply matches_one.
    + apply StronglySorted_merge_sort; apply _.
    + apply merge_sort_Permutation.
Qed.

Lemma list_endpoints_issue_one_query_witness :
  let x := run ref_handler (getUserPins (Some demo_client) "alice") demo_world in
  db demo_world !! "pins" <> None /\
  Exec (getUserPins (Some demo_client) "alice") (trace_of x) (outcome_of x) /\
  exists (answer : Result (list Obj)) (logs : Trace),
    trace_of x
    = ev (Await {| table := "pins"; verb := Select "*";
                   filters := [("username", VStr "alice")];
                   ordering := [("created_at", false)];
                   returning := false |}) answer :: logs /\
    requests logs = [] /\
    (error answer = None -> outcome_of x = Returned (default [] (data answer))).
Proof.
  intros x. split; [by vm_compute|]. split; [apply run_Exec|].
  apply (proj1 (list_endpoints_issue_one_query demo_client "alice")). apply run_Exec.
Defined.

(** On the small deployment alice's two pins come back, the later first. *)
Example getUserPins_demo :
  outcome_of (run ref_handler (getUserPins (Some demo_client) "alice") demo_world)
  = Returned [demo_pin "3" "alice" "2024-01-03T10:00:00Z";
              demo_pin "1" "alice" "2024-01-01T10:00:00Z"].
Proof. vm_compute. reflexivity. Qed.

(** ** The object key of an upload *)

Lemma split_nonempty (c : ascii) (s : string) : split c s <> [].
Proof.
  induction s as [|a s IH]; simpl; [done|].
  destruct (Ascii.eqb a c); [done|]. by destruct (split c s).
Qed.

(** A string without the separator is its own single piece. *)
Lemma split_no_separator (c : ascii) (s : string) :
  contains c s = false -> split c s = [s].
Proof.
  induction s as [|a s IH]; simpl; [done|].
  destruct (Ascii.eqb a c); simpl; [done|]. intros H. by rewrite IH.
Qed.

(** Splitting distributes over an occurrence of the separator. *)
Lemma split_at_separator (c : ascii) (s1 s2 : string) :
  split c (s1 +:+ String c s2) = (split c s1 ++ split c s2)%list.
Proof.
  induction s1 as [|a s1 IH].
  - change ("" +:+ String c s2) with (String c s2). simpl.
    by rewrite Ascii.eqb_refl.
  - change (String a s1 +:+ String c s2) with (String a (s1 +:+ String c s2)).
    simpl. rewrite IH. destruct (Ascii.eqb a c); [done|].
    pose proof (split_nonempty c s1). by destruct (split c s1).
Qed.

(** [name.split('.').pop()] is what follows the last dot of [name]. *)
Lemma extension_after_last_dot (stem ext : string) :
  contains "." ext = false ->
  pop (split "." (stem +:+ "." +:+ ext)) = Some (VStr ext).
Proof.
  intros H. change ("." +:+ ext) with (String "."%char ext).
  unfold pop. by rewrite split_at_separator, (split_no_separator _ ext), last_snoc.
Qed.

Lemma pop_split_defined (c : ascii) (s : string) :
  exists piece, pop (split c s) = Some (VStr piece).
Proof.
  unfold pop. pose proof (split_nonempty c s) as H.
  destruct (last (split c s)) as [piece|] eqn:E; [by exists piece|].
  by apply last_None in E.
Qed.

(** A name with a dot has a last dot. *)
Lemma last_dot_exists (s : string) :
  contains "." s = true -> exists ext, after_last_dot s ext.
Proof.
  unfold after_last_dot. induction s as [|a s IH]; simpl; [done|].
  destruct (contains "." s) eqn:E.
  - intros _. destruct (IH eq_refl) as (ext & stem & -> & Hext).
    exists ext, (String a stem). by split.
  - rewrite orb_false_r. intros Ha. apply Ascii.eqb_eq in Ha as ->.
    exists s, "". by split.
Qed.

Lemma contains_separator (c : ascii) (stem ext : string) :
  contains c (stem +:+ String c ext) = true.
Proof.
  induction stem as [|a stem IH].
  - simpl. by rewrite Ascii.eqb_refl.
  - change (String a stem +:+ String c ext) with (String a (stem +:+ String c ext)).
    simpl. rewrite IH. apply orb_true_r.
Qed.

(** A file name without a dot: the whole name is appended as its
    extension, where the specification takes what follows the last dot. *)
Lemma uploadImage_name_without_dot :
  let x := run ref_handler (uploadImage (Some demo_client) readme_file "u1" None)
             demo_world in
  ~ stated_upload_key readme_file "u1" (trace_of x) /\
  backend_calls (trace_of x)
  = [StorageUpload "pin-images" "u1/1700000000000-k3x9q2.README" readme_file "3600" false].
Proof.
  intros x. split; [|vm_compute; reflexivity].
  intros (bucket & now & rnd & ext & answer & (stem & Hname & _) & _).
  pose proof (contains_separator "." stem ext) as H.
  change (String "."%char ext) with ("." +:+ ext) in H. rewrite <- Hname in H.
  vm_compute in H. discriminate H.
Qed.

(** C8, amended. [uploadImage] builds the object key as the owner id, a
    path separator, the current time in milliseconds, a hyphen, a random
    base-36 suffix, a dot, and the last dot-separated piece of the
    original file name: what follows the last dot of a name that has one,
    the whole name otherwise; the upload is issued with upsert disabled,
    and on success the stored path is returned. *)
Theorem uploadImage_object_key
    (c : Client) (file : File) (userId : string) (bucketName : option string)
    (tr : Trace) (o : Outcome (option string)) :
  Exec (uploadImage (Some c) file userId bucketName) tr o ->
  upload_shape file userId (bucket_or_default bucketName) tr o /\
  (forall ext, after_last_dot (file_name file) ext ->
               pop (split "." (file_name file)) = Some (VStr ext)) /\
  (contains "." (file_name file) = true -> exists ext, after_last_dot (file_name file) ext) /\
  (contains "." (file_name file) = false ->
   pop (split "." (file_name file)) = Some (VStr (file_name file))).
Proof.
  intros H. split; [|split; [|split]].
  - unfold uploadImage in H.
    destruct (pop_split_defined "." (file_name file)) as [ext Hext].
    rewrite Hext in H. cbn [js_String] in H. exec_inv H.
    all: eexists _, _, ext, _, _; (split; [done|]); (split; [reflexivity|]).
    all: split; [reflexivity|]; split; [intros; congruence | intros; congruence].
  - intros ext (stem & -> & Hext). by apply extension_after_last_dot.
  - apply last_dot_exists.
  - intros Hname. unfold pop. by rewrite split_no_separator.
Qed.

Lemma uploadImage_object_key_witness :
  let p := uploadImage (Some demo_client) demo_file "u1" (Some "profile-pictures") in
  let x := run ref_handler p demo_world in
  Exec p (trace_of x) (outcome_of x) /\
  upload_shape demo_file "u1" "profile-pictures" (trace_of x) (outcome_of x) /\
  after_last_dot (file_name demo_file) "png" /\
  pop (split "." (file_name demo_file)) = Some (VStr "png").
Proof.
  intros p x. split; [apply run_Exec|].
  destruct (uploadImage_object_key demo_client demo_file "u1" (Some "profile-pictures")
              (trace_of x) (outcome_of x) (run_Exec ref_handler p demo_world))
    as (H1 & H2 & _).
  assert (Hext : after_last_dot (file_name demo_file) "png")
    by (by exists "holiday.2024").
  split; [exact H1|]. split; [exact Hext|]. by apply H2.
Defined.

Example uploadImage_demo :
  let p := uploadImage (Some demo_client) demo_file "u1" (Some "profile-pictures") in
  backend_calls (trace_of (run ref_handler p demo_world))
  = [StorageUpload "profile-pictures" "u1/1700000000000-k3x9q2.png" demo_file "3600" false]
  /\ outcome_of (run ref_handler p demo_world) = Returned (Some "u1/1700000000000-k3x9q2.png").
Proof. split; vm_compute; reflexivity. Qed.

(** ** Changing the username *)

Lemma digit_not_white_space (a : ascii) : is_digit a = true -> is_white_space a = false.
Proof. destruct a as [[] [] [] [] [] [] [] []]; by vm_compute. Qed.

Lemma trimEnd_keeps (a : ascii) (s : string) :
  is_white_space a = false -> trimEnd (String a s) <> "".
Proof. intros H. simpl. rewrite H. by destruct (trimEnd s). Qed.

(** A string of seven digits passes the test, and nothing else does. *)
Lemma username_accepted_iff_guest_pattern (s : string) :
  username_accepted s <-> re_seven_digits s = true.
Proof.
  unfold username_accepted, re_seven_digits.
  rewrite andb_true_iff, Nat.eqb_eq. split; [tauto|].
  intros [Hlen Hdig]. split; [|done].
  destruct s as [|a s]; [done|]. simpl in Hdig.
  apply andb_true_iff in Hdig as [Ha _]. apply digit_not_white_space in Ha.
  unfold trim. cbn [trimStart]. rewrite Ha. by apply trimEnd_keeps.
Qed.

(** C10. The submit handler invokes [onUsernameChange], with the string
    typed, exactly when its trimmed form is non-empty, its length is 7 and
    it consists only of digits; so every username that leaves the modal
    this way matches the seven-digit guest pattern, and no other string is
    passed to [onUsernameChange]. *)
Theorem handleUsernameSubmit_passes_seven_digits
    (st : State) (tr : Trace) (o : Outcome unit) :
  Exec (handleUsernameSubmit st) tr o ->
  (username_accepted (newUsername st) /\
   username_changes tr = [newUsername st] /\
   re_seven_digits (newUsername st) = true)
  \/ (~ username_accepted (newUsername st) /\ username_changes tr = []).
Proof.
  intros H. unfold handleUsernameSubmit in H.
  destruct (negb (String.eqb (trim (newUsername st)) "")
            && (String.length (newUsername st) =? 7)%nat
            && re_digits (newUsername st)) eqn:Htest; exec_inv H.
  - left. apply andb_true_iff in Htest as [Htest Hdig].
    apply andb_true_iff in Htest as [Htrim Hlen].
    apply negb_true_iff, String.eqb_neq in Htrim. apply Nat.eqb_eq in Hlen.
    unfold re_digits in Hdig. apply andb_true_iff in Hdig as [_ Hdig].
    assert (username_accepted (newUsername st)) as Hacc by done.
    split; [done|]. split; [reflexivity|].
    by apply username_accepted_iff_guest_pattern.
  - right. split; [|reflexivity]. intros (Htrim & Hlen & Hdig).
    apply String.eqb_neq in Htrim. apply Nat.eqb_eq in Hlen.
    assert (String.eqb (newUsername st) "" = false) as Hne.
    { apply String.eqb_neq. intros E. rewrite E in Hlen. discriminate Hlen. }
    unfold re_digits in Htest. by rewrite Htrim, Hlen, Hne, Hdig in Htest.
Qed.

Lemma handleUsernameSubmit_passes_seven_digits_witness :
  let x := run ref_handler (handleUsernameSubmit (typing "0042137")) demo_world in
  Exec (handleUsernameSubmit (typing "0042137")) (trace_of x) (outcome_of x) /\
  username_changes (trace_of x) = ["0042137"].
Proof.
  intros x. split; [apply run_Exec|].
  destruct (handleUsernameSubmit_passes_seven_digits (typing "0042137")
              (trace_of x) (outcome_of x) (run_Exec ref_handler _ demo_world))
    as [(_ & H & _) | (_ & H)]; [exact H|].
  vm_compute in H. discriminate H.
Defined.

(** Seven characters that are not all digits, eight digits, and seven
    digits after a space are all turned away. *)
Example handleUsernameSubmit_demo :
  map (fun s => username_changes
                  (trace_of (run ref_handler (handleUsernameSubmit (typing s)) demo_world)))
      ["0042137"; "00421a7"; "00421377"; " 0042137"; "       "; ""]
  = [["0042137"]; []; []; []; []; []].
Proof. vm_compute. reflexivity. Qed.

(** ** Opening the modal on a guest *)

(** Opening the modal also starts [checkAuthStatus], which fetches the
    profile of the signed-in viewer whatever the username shown. *)
Lemma open_on_guest_queries_profiles :
  re_seven_digits (username guest_view) = true /\
  let x := concurrently ref_handler [0; 1; 1; 1]%nat
             (useEffect_open (Some demo_client) guest_view) demo_world in
  map finished x.1.1 = [Some (Returned tt); Some (Returned tt)] /\
  ~ no_profiles_query x.2.
Proof.
  split; [reflexivity|]. intros x. split; [vm_compute; reflexivity|].
  intros H. vm_compute in H.
  inversion H as [|? ? _ H2]. inversion H2 as [|? ? H3 _]. by apply H3.
Qed.

(** C6, amended. For every username of exactly seven digits
    [fetchProfileData] issues no query against the profiles table: it asks
    the backend for the pins only and builds the guest record locally.
    (The open of the modal also runs [checkAuthStatus], which is not
    covered: it queries the profile of the signed-in viewer.) *)
Theorem fetchProfileData_guest_short_circuit
    (supabase : option Client) (props : UserProfileModalProps) (tr : Trace) (o : Outcome unit) :
  re_seven_digits (username props) = true ->
  Exec (fetchProfileData supabase props) tr o ->
  guest_fetch_shape supabase (username props) tr o.
Proof.
  intros Hguest H. unfold fetchProfileData, isGuestUser in H.
  rewrite Hguest in H. cbn [negb] in H. unfold getUserPins in H.
  destruct supabase as [c|]; exec_inv H.
  all: unfold guest_fetch_shape, no_profiles_query.
  all: split; [trace_requests; repeat constructor; done|].
  all: split; [reflexivity|]; split; [eexists _, _; split; reflexivity|].
  all: match goal with |- Returned ?u = _ => by destruct u end.
Qed.

Lemma fetchProfileData_guest_short_circuit_witness :
  let x := run ref_handler (fetchProfileData (Some demo_client) guest_view) demo_world in
  re_seven_digits (username guest_view) = true /\
  Exec (fetchProfileData (Some demo_client) guest_view) (trace_of x) (outcome_of x) /\
  guest_fetch_shape (Some demo_client) "1234567" (trace_of x) (outcome_of x).
Proof.
  intros x. split; [reflexivity|]. split; [apply run_Exec|].
  apply (fetchProfileData_guest_short_circuit (Some demo_client) guest_view).
  - reflexivity.
  - apply run_Exec.
Defined.

(** ** Two readers of one post *)

Lemma bump_filter (postId : string) (v : Value) (rows : list Obj) :
  List.filter (matches (by_id postId)) (bump postId v rows)
  = map (fun row : Obj => <["view_count" := v]> row)
        (List.filter (matches (by_id postId)) rows).
Proof.
  induction rows as [|row rows IH]; [done|]. unfold bump in *. cbn [map List.filter].
  destruct (matches (by_id postId) row) eqn:E.
  - assert (matches (by_id postId) ({["view_count" := v]} ∪ row) = true) as ->.
    { apply matches_one. apply matches_one in E.
      rewrite <- insert_union_singleton_l. by rewrite lookup_insert_ne. }
    cbn [map]. rewrite IH. by rewrite insert_union_singleton_l.
  - rewrite E. apply IH.
Qed.

Lemma ref_fetch (w : World) (rows : list Obj) (postId : string) (post : Obj) :
  db w !! "blog_posts" = Some rows ->
  List.filter (matches (by_id postId)) rows = [post] ->
  ref_handler (AwaitSingle (sb.from "blog_posts" |> sb.select "*"
                              |> sb.eq "id" (VStr postId))) w
  = ({| data := Some post; error := None |}, set_db (<["blog_posts" := rows]> (db w)) w).
Proof.
  intros Hrows Hpost. cbn [ref_handler sb.eq sb.select table]. unfold sb.from.
  rewrite Hrows. unfold exec_request.
  cbn [verb filters ordering app apply_order foldr sb.eq sb.select].
  rewrite Hpost. reflexivity.
Qed.

Lemma ref_update (w : World) (rows : list Obj) (postId : string) (v : Value) :
  db w !! "blog_posts" = Some rows ->
  ref_handler (Await (sb.from "blog_posts"
                        |> sb.update (obj_lit [("view_count", Some v)])
                        |> sb.eq "id" (VStr postId))) w
  = ({| data := None; error := None |},
     set_db (<["blog_posts" := bump postId v rows]> (db w)) w).
Proof.
  intros Hrows. cbn [ref_handler sb.eq sb.update table]. unfold sb.from.
  rewrite Hrows. unfold exec_request, carries_rows.
  cbn [verb filters ordering app returning sb.eq sb.update].
  unfold obj_lit. cbn [foldr]. rewrite insert_empty. reflexivity.
Qed.

Lemma lookup_set_db (t : string) (rows : list Obj) (d : gmap string (list Obj))
    (w : World) :
  db (set_db (<[t := rows]> d) w) !! t = Some rows.
Proof. apply lookup_insert_eq. Qed.

Lemma db_set_db (d : gmap string (list Obj)) (w : World) : db (set_db d w) = d.
Proof. reflexivity. Qed.

Ltac pool_step :=
  cbn [concurrently start settle is_async try_catch bind call interleave resume
       lookup list_lookup insert list_insert fst snd map finished error data app].

(** C9. Two executions of [getBlogPost(id)] in flight together may both
    read the same stored view_count and both write that value plus 1, so
    that the stored count grows by 1; run one after the other they make it
    grow by 2.  Nothing in the function orders the two read-write pairs.
    The stored count [n] and its successor are safe integers, so that each
    [+ 1] of the source is exact. *)
Theorem getBlogPost_lost_update
    (c : Client) (w : World) (postId : string) (rows : list Obj) (post : Obj) (n : Z) :
  db w !! "blog_posts" = Some rows ->
  List.filter (matches (by_id postId)) rows = [post] ->
  post !! "view_count" = Some (VNum n) ->
  safe_count n -> safe_count (n + 1) ->
  two_readers c w postId [0; 1; 0; 1]%nat post post [VNum (n + 1); VNum (n + 1)]
    (<["view_count" := VNum (n + 1)]> post) /\
  two_readers c w postId [0; 0; 1; 1]%nat post (<["view_count" := VNum (n + 1)]> post)
    [VNum (n + 1); VNum (n + 2)] (<["view_count" := VNum (n + 2)]> post).
Proof.
  intros Hrows Hpost Hn Hsafe Hsafe'.
  assert (H1 : js_plus_one (Some (VNum n)) = VNum (n + 1)) by by apply js_plus_one_safe.
  assert (H2 : js_plus_one (Some (VNum (n + 1))) = VNum (n + 2)).
  { rewrite js_plus_one_safe by done. f_equal. lia. }
  unfold two_readers. split.
  - unfold getBlogPost. pool_step.
    erewrite ref_fetch; [|exact Hrows|exact Hpost]. pool_step.
    erewrite ref_fetch; [|apply lookup_set_db|exact Hpost]. pool_step.
    erewrite ref_update; [|apply lookup_set_db]. pool_step.
    erewrite ref_update; [|apply lookup_set_db]. pool_step.
    rewrite Hn, H1.
    split; [reflexivity|]. split.
    + trace_requests. unfold obj_lit. cbn [foldr]. rewrite insert_empty.
      cbn [update_payload verb sb.eq sb.update mbind option_bind].
      by rewrite lookup_singleton_eq.
    + rewrite db_set_db, lookup_insert_eq. cbn [fmap option_fmap option_map].
      rewrite !bump_filter, Hpost. cbn [map]. by rewrite insert_insert_eq.
  - unfold getBlogPost. pool_step.
    erewrite ref_fetch; [|exact Hrows|exact Hpost]. pool_step.
    erewrite ref_update; [|apply lookup_set_db]. pool_step.
    erewrite ref_fetch; [|apply lookup_set_db|by rewrite bump_filter, Hpost]. pool_step.
    erewrite ref_update; [|apply lookup_set_db]. pool_step.
    rewrite Hn, H1, lookup_insert_eq, H2.
    split; [reflexivity|]. split.
    + trace_requests. unfold obj_lit. cbn [foldr]. rewrite !insert_empty.
      cbn [update_payload verb sb.eq sb.update mbind option_bind].
      by rewrite !lookup_singleton_eq.
    + rewrite db_set_db, lookup_insert_eq. cbn [fmap option_fmap option_map].
      rewrite !bump_filter, Hpost. cbn [map]. by rewrite insert_insert_eq.
Qed.

Lemma getBlogPost_lost_update_witness :
  db demo_world !! "blog_posts" = Some [demo_post "p1" 10] /\
  List.filter (matches (by_id "p1")) [demo_post "p1" 10] = [demo_post "p1" 10] /\
  demo_post "p1" 10 !! "view_count" = Some (VNum 10) /\
  safe_count 10 /\ safe_count (10 + 1) /\
  two_readers demo_client demo_world "p1" [0; 1; 0; 1]%nat
    (demo_post "p1" 10) (demo_post "p1" 10) [VNum 11; VNum 11]
    (<["view_count" := VNum 11]> (demo_post "p1" 10)) /\
  two_readers demo_client demo_world "p1" [0; 0; 1; 1]%nat
    (demo_post "p1" 10) (<["view_count" := VNum 11]> (demo_post "p1" 10))
    [VNum 11; VNum 12] (<["view_count" := VNum 12]> (demo_post "p1" 10)).
Proof.
  assert (H1 : db demo_world !! "blog_posts" = Some [demo_post "p1" 10])
    by (vm_compute; reflexivity).
  assert (H2 : List.filter (matches (by_id "p1")) [demo_post "p1" 10]
               = [demo_post "p1" 10]) by (vm_compute; reflexivity).
  assert (H3 : demo_post "p1" 10 !! "view_count" = Some (VNum 10))
    by (vm_compute; reflexivity).
  assert (H4 : safe_count 10) by (vm_compute; reflexivity).
  assert (H5 : safe_count (10 + 1)) by (vm_compute; reflexivity).
  split; [exact H1|]. split; [exact H2|]. split; [exact H3|].
  split; [exact H4|]. split; [exact H5|].
  exact (getBlogPost_lost_update demo_client demo_world "p1" _ _ 10 H1 H2 H3 H4 H5).
Defined.

(** Beyond the safe integers the count no longer moves: from 2^53 two
    readers one after the other both write 2^53. *)
Example getBlogPost_beyond_safe_counts :
  let post := demo_post "p1" (2 ^ 53) in
  let w := set_db (<["blog_posts" := [post]]> (db demo_world)) demo_world in
  two_readers demo_client w "p1" [0; 0; 1; 1]%nat post post
    [VNum (2 ^ 53); VNum (2 ^ 53)] post.
Proof. repeat split; vm_compute; reflexivity. Qed.

(** ** Changing the profile picture *)


Ltac bool_facts :=
  repeat match goal with
    | H : _ || _ = false |- _ => apply orb_false_iff in H as [? ?]
    | H : negb _ = false |- _ => apply negb_false_iff in H
    | H : negb _ = true |- _ => apply negb_true_iff in H
    | H : (_ >? _) = false |- _ => rewrite Z.gtb_ltb, Z.ltb_ge in H
    | H : (_ >? _) = true |- _ => rewrite Z.gtb_ltb, Z.ltb_lt in H
    | H : no_error ?r = _ |- _ =>
        unfold no_error in H; destruct (error r) eqn:?; try discriminate H; clear H
    end.

Ltac units :=
  repeat match goal with
    | r : Resp ?e |- _ =>
        let T := eval cbv in (Resp e) in
        lazymatch T with unit => destruct r end
    end.




(** On the small deployment: the whole flow for a small image, one alert
    and no call on the backend for a 6MB one; without the bucket the flow
    ends at the upload, with the failure alert. *)
Example handleProfilePictureChange_demo :
  let run_with file w :=
    trace_of (run ref_handler
                (handleProfilePictureChange (Some demo_client) own_view (typing "")
                   (Some file)) w) in
  stages (run_with demo_file demo_world)
  = [Upload; UrlFetch; ProfileUpdate; Refetch; Refetch; Refetch] /\
  failed_stage (run_with demo_file demo_world) = None /\
  alerts (run_with demo_file demo_world) = ["Profile picture updated successfully!"] /\
  backend_calls (run_with six_megabytes demo_world) = [] /\
  alerts (run_with six_megabytes demo_world) = ["Image size must be less than 5MB"] /\
  stages (run_with demo_file demo_world_no_bucket) = [Upload] /\
  failed_stage (run_with demo_file demo_world_no_bucket) = Some Upload /\
  alerts (run_with demo_file demo_world_no_bucket)
  = ["Failed to update profile picture. Please try again."].
Proof. repeat split; vm_compute; reflexivity. Qed.

(** ** Looking profiles up *)

(** X1. With the facade present [getCurrentUserProfile] never throws: it
    asks the session for its user, returns null without one, and otherwise
    asks for the single row of profiles under that user's id, returning
    the row unless the answer carries an error. *)
Theorem getCurrentUserProfile_by_session_id
    (c : Client) (tr : Trace) (o : Outcome (option Obj)) :
  Exec (getCurrentUserProfile (Some c)) tr o -> profile_lookup_shape tr o.
Proof.
  intros H. unfold getCurrentUserProfile in H. exec_inv H; units.
  all: eexists _, _; (split; [reflexivity|]).
  all: try (split; reflexivity).
  all: eexists _, _; (split; [reflexivity|]); (split; [reflexivity|]).
  all: repeat match goal with E : error _ = _ |- _ => rewrite E end.
  all: repeat match goal with E : data _ = _ |- _ => rewrite E end.
  all: reflexivity.
Qed.

Lemma getCurrentUserProfile_by_session_id_witness :
  let x := run ref_handler (getCurrentUserProfile (Some demo_client)) demo_world in
  Exec (getCurrentUserProfile (Some demo_client)) (trace_of x) (outcome_of x) /\
  profile_lookup_shape (trace_of x) (outcome_of x).
Proof.
  intros x. split; [apply run_Exec|].
  apply (getCurrentUserProfile_by_session_id demo_client). apply run_Exec.
Defined.

(** X2. With the facade present [getProfileByUsername] never throws and
    issues one read of profiles by username; it returns the first row of
    the answer, so several rows under one username are tolerated, and null
    when the answer carries an error or no row. *)
Theorem getProfileByUsername_first_row
    (c : Client) (username : string) (tr : Trace) (o : Outcome (option Obj)) :
  Exec (getProfileByUsername (Some c) username) tr o ->
  profile_by_username_shape username tr o.
Proof.
  intros H. unfold getProfileByUsername in H. exec_inv H; units.
  all: eexists _, _; (split; [reflexivity|]); (split; [reflexivity|]).
  all: repeat match goal with E : error _ = _ |- _ => rewrite E end.
  all: repeat match goal with E : data _ = _ |- _ => rewrite E end.
  all: reflexivity.
Qed.

Lemma getProfileByUsername_first_row_witness :
  let x := run ref_handler (getProfileByUsername (Some demo_client) "alice") demo_world in
  Exec (getProfileByUsername (Some demo_client) "alice") (trace_of x) (outcome_of x) /\
  profile_by_username_shape "alice" (trace_of x) (outcome_of x).
Proof.
  intros x. split; [apply run_Exec|].
  apply (getProfileByUsername_first_row demo_client). apply run_Exec.
Defined.

(** ** Errors of the reads and of the deletions *)

(** X3. With the facade present no list endpoint throws and each issues
    one read.  [getMarketplaceItems], [getUserMarketplaceItems],
    [getBlogPosts] and [getUserBlogPosts] return the empty list whenever
    the answer carries an error, even if rows come with it; [getUserPins]
    does not look at the error and returns the rows of the answer, or the
    empty list when there are none. *)
Theorem list_endpoints_error_fallback
    (c : Client) (username : string) (publishedOnly : option bool) (tr : Trace)
    (o : Outcome (list Obj)) :
  (Exec (getMarketplaceItems (Some c)) tr o -> one_read_returning tr o rows_unless_error) /\
  (Exec (getUserMarketplaceItems (Some c) username) tr o ->
   one_read_returning tr o rows_unless_error) /\
  (Exec (getBlogPosts (Some c) publishedOnly) tr o ->
   one_read_returning tr o rows_unless_error) /\
  (Exec (getUserBlogPosts (Some c) username) tr o ->
   one_read_returning tr o rows_unless_error) /\
  (Exec (getUserPins (Some c) username) tr o ->
   one_read_returning tr o (fun answer => default [] (data answer))).
Proof.
  unfold getMarketplaceItems, getUserMarketplaceItems, getBlogPosts, getUserBlogPosts,
    getUserPins.
  repeat apply conj; intros H; exec_inv H; units.
  all: eexists _, _, _; (split; [reflexivity|]); (split; [reflexivity|]).
  all: unfold rows_unless_error.
  all: repeat match goal with E : error _ = _ |- _ => rewrite E end.
  all: reflexivity.
Qed.

Lemma list_endpoints_error_fallback_witness :
  let x := run ref_handler (getMarketplaceItems (Some demo_client)) demo_world in
  Exec (getMarketplaceItems (Some demo_client)) (trace_of x) (outcome_of x) /\
  one_read_returning (trace_of x) (outcome_of x) rows_unless_error.
Proof.
  intros x. split; [apply run_Exec|].
  apply (proj1 (list_endpoints_error_fallback demo_client "alice" None _ _)).
  apply run_Exec.
Defined.

(** X4. With the facade present [deleteMarketplaceItem] and
    [deleteBlogPost] never throw: each issues exactly one delete of the rows
    under the given id, reads nothing back, and returns true exactly when
    the answer carries no error. *)
Theorem database_deletes_report_errors
    (c : Client) (id : string) (tr : Trace) (o : Outcome bool) :
  (Exec (deleteMarketplaceItem (Some c) id) tr o -> delete_shape "marketplace_items" id tr o) /\
  (Exec (deleteBlogPost (Some c) id) tr o -> delete_shape "blog_posts" id tr o).
Proof.
  unfold deleteMarketplaceItem, deleteBlogPost.
  split; intros H; exec_inv H; eexists; split; reflexivity.
Qed.

Lemma database_deletes_report_errors_witness :
  let x := run ref_handler (deleteBlogPost (Some demo_client) "p1") demo_world in
  Exec (deleteBlogPost (Some demo_client) "p1") (trace_of x) (outcome_of x) /\
  delete_shape "blog_posts" "p1" (trace_of x) (outcome_of x).
Proof.
  intros x. split; [apply run_Exec|].
  apply (proj2 (database_deletes_report_errors demo_client "p1" _ _)). apply run_Exec.
Defined.

(** ** The storage helpers *)

(** X5. With the facade present [getImageUrl] makes one call on the
    client, none over the network, and returns the URL it is given;
    [deleteImage] never throws, asks for the removal of exactly the given
    path and returns true exactly when the answer carries no error.  Both
    act on the bucket 'pin-images' unless another is named. *)
Theorem storage_helpers_pass_through
    (c : Client) (path : string) (bucketName : option string) :
  (forall tr o, Exec (getImageUrl (Some c) path bucketName) tr o ->
                public_url_shape (default "pin-images" bucketName) path tr o) /\
  (forall tr o, Exec (deleteImage (Some c) path bucketName) tr o ->
                remove_shape (default "pin-images" bucketName) path tr o).
Proof.
  unfold getImageUrl, deleteImage.
  split; intros tr o H; exec_inv H; eexists; repeat split; reflexivity.
Qed.

Lemma storage_helpers_pass_through_witness :
  let x := run ref_handler (deleteImage (Some demo_client) "u1/1-a.png" None) demo_world in
  Exec (deleteImage (Some demo_client) "u1/1-a.png" None) (trace_of x) (outcome_of x) /\
  remove_shape "pin-images" "u1/1-a.png" (trace_of x) (outcome_of x).
Proof.
  intros x. split; [apply run_Exec|].
  apply (proj2 (storage_helpers_pass_through demo_client "u1/1-a.png" None)).
  apply run_Exec.
Defined.

(** ** What the creations insert *)

Ltac made_row :=
  unfold marketplace_row, blog_post_row, obj_lit; cbn [foldr];
  match goal with
  | |- context [match ?p !! "username" with _ => _ end] =>
      destruct (p !! "username"); repeat split; by simplify_map_eq
  end.

(** X6. Whatever the caller passes, the row [createMarketplaceItem]
    inserts is sold by the username of the profile read for the session,
    is active, and carries the trimmed title and description; the row
    [createBlogPost] inserts is authored by that username and is a draft
    unless [isPublished] says otherwise.  Neither row carries an id, a
    creation time or a view count, and at most one row is inserted. *)
Theorem creations_insert_for_session_profile
    (c : Client) (title text : string) (price : Z) (images storagePaths : list string)
    (isPublished : option bool) (tr : Trace) (o : Outcome (option Obj)) :
  (Exec (createMarketplaceItem (Some c) title text price images storagePaths) tr o ->
   inserts_row_for_profile tr
     (fun profile => marketplace_row profile title text price images storagePaths)) /\
  (Exec (createBlogPost (Some c) title text isPublished) tr o ->
   inserts_row_for_profile tr (fun profile => blog_post_row profile title text isPublished)).
Proof.
  unfold createMarketplaceItem, createBlogPost, getCurrentUserProfile.
  split; intros H; exec_inv H.
  all: unfold inserts_row_for_profile, inserted_rows; trace_requests;
    cbn [insert_rows verb sb.select sb.eq sb.insert sb.select_returning concat app length].
  all: split; [lia|]; intros row Hrow.
  all: try (destruct Hrow; fail).
  all: destruct Hrow as [<-|[]].
  all: eexists _, _, _; split; [do 3 right; left; reflexivity|].
  all: split; [reflexivity|]; split; [eassumption|]; split; [assumption|].
  all: made_row.
Qed.

Lemma creations_insert_for_session_profile_witness :
  let p := createBlogPost (Some demo_client) "  Hello " " first post " None in
  let x := run ref_handler p demo_world in
  Exec p (trace_of x) (outcome_of x) /\
  inserts_row_for_profile (trace_of x)
    (fun profile => blog_post_row profile "  Hello " " first post " None).
Proof.
  intros p x. split; [apply run_Exec|].
  apply (proj2 (creations_insert_for_session_profile demo_client "  Hello " " first post "
                  0 [] [] None (trace_of x) (outcome_of x))).
  apply run_Exec.
Defined.

(** On the small deployment the draft is inserted under alice's name. *)
Example createBlogPost_demo :
  let p := createBlogPost (Some demo_client) "  Hello " " first post " None in
  inserted_rows (trace_of (run ref_handler p demo_world))
  = [obj_lit [("author_username", Some (VStr "alice")); ("title", Some (VStr "Hello"));
              ("content", Some (VStr "first post")); ("is_published", Some (VBool false))]].
Proof. vm_compute. reflexivity. Qed.

(** ** The reference backend, request by request *)

Lemma set_db_same (w : World) (t : string) (rows : list Obj) :
  db w !! t = Some rows -> set_db (<[t := rows]> (db w)) w = w.
Proof. intros H. rewrite insert_id by done. by destruct w. Qed.

(** A read leaves the tables as they are. *)
Lemma ref_read (w : World) (q : Request) (columns : string) (rows : list Obj) :
  verb q = Select columns -> db w !! table q = Some rows ->
  ref_handler (Await q) w
  = ({| data := Some (apply_order (ordering q) (List.filter (matches (filters q)) rows));
        error := None |}, w).
Proof.
  intros Hv Hrows. cbn [ref_handler]. rewrite Hrows.
  unfold exec_request, carries_rows. rewrite Hv. by rewrite set_db_same.
Qed.

Lemma ref_read_single (w : World) (q : Request) (columns : string) (rows : list Obj) :
  verb q = Select columns -> db w !! table q = Some rows ->
  ref_handler (AwaitSingle q) w
  = (match apply_order (ordering q) (List.filter (matches (filters q)) rows) with
     | [row] => {| data := Some row; error := None |}
     | _ => failure "JSON object requested, multiple (or no) rows returned"
     end, w).
Proof.
  intros Hv Hrows. cbn [ref_handler]. rewrite Hrows.
  unfold exec_request. rewrite Hv. by rewrite set_db_same.
Qed.

Lemma ref_write (w : World) (q : Request) (payload : Obj) (rows : list Obj) :
  verb q = Update payload -> returning q = false -> db w !! table q = Some rows ->
  ref_handler (Await q) w
  = ({| data := None; error := None |},
     set_db (<[table q :=
                 map (fun row => if matches (filters q) row then payload ∪ row else row)
                     rows]> (db w)) w).
Proof.
  intros Hv Hr Hrows. cbn [ref_handler]. rewrite Hrows.
  unfold exec_request, carries_rows. by rewrite Hv, Hr.
Qed.

Lemma ref_delete (w : World) (q : Request) (rows : list Obj) :
  verb q = Delete -> returning q = false -> db w !! table q = Some rows ->
  ref_handler (Await q) w
  = ({| data := None; error := None |},
     set_db (<[table q := List.filter (fun row => negb (matches (filters q) row)) rows]>
               (db w)) w).
Proof.
  intros Hv Hr Hrows. cbn [ref_handler]. rewrite Hrows.
  unfold exec_request, carries_rows. by rewrite Hv, Hr.
Qed.

Lemma filter_none_left (f : Obj -> bool) (rows : list Obj) :
  List.filter f (List.filter (fun row => negb (f row)) rows) = [].
Proof.
  induction rows as [|row rows IH]; [done|]. cbn [List.filter].
  destruct (f row) eqn:E; cbn [negb List.filter]; [done|]. by rewrite E.
Qed.

Ltac run_step := cbn [run try_catch bind call outcome_of trace_of world_of fst snd].

(** ** Deleting, then reading *)

(** X7. On the reference backend [deleteBlogPost(id)] returns true whether
    or not a post has that id, removes the posts under that id and no
    other row; a [getBlogPost(id)] that follows returns null and issues no
    view-count update. *)
Theorem deleted_post_is_gone
    (c : Client) (w : World) (postId : string) (rows : list Obj) :
  db w !! "blog_posts" = Some rows ->
  let deleted := run ref_handler (deleteBlogPost (Some c) postId) w in
  let fetched := run ref_handler (getBlogPost (Some c) postId) (world_of deleted) in
  outcome_of deleted = Returned true /\
  db (world_of deleted) !! "blog_posts"
  = Some (List.filter (fun row => negb (matches (by_id postId) row)) rows) /\
  outcome_of fetched = Returned None /\
  omap update_payload (requests (trace_of fetched)) = [] /\
  db (world_of fetched) = db (world_of deleted).
Proof.
  intros Hrows deleted fetched. subst fetched deleted.
  unfold deleteBlogPost. run_step.
  erewrite ref_delete; [|reflexivity|reflexivity|exact Hrows]. run_step.
  cbn [sb.eq sb.delete sb.from table filters app].
  split; [reflexivity|]. split; [apply lookup_set_db|].
  unfold getBlogPost. run_step.
  erewrite ref_read_single; [|reflexivity|apply lookup_set_db].
  cbn [sb.eq sb.select sb.from ordering filters app apply_order foldr].
  rewrite filter_none_left. cbn [error failure]. run_step.
  cbn [ref_handler]. run_step. repeat split; reflexivity.
Qed.

Lemma deleted_post_is_gone_witness :
  db demo_world !! "blog_posts" = Some [demo_post "p1" 10] /\
  outcome_of (run ref_handler (getBlogPost (Some demo_client) "p1")
                (world_of (run ref_handler (deleteBlogPost (Some demo_client) "p1")
                             demo_world)))
  = Returned None.
Proof.
  assert (H : db demo_world !! "blog_posts" = Some [demo_post "p1" 10])
    by (vm_compute; reflexivity).
  split; [exact H|].
  exact (proj1 (proj2 (proj2 (deleted_post_is_gone demo_client demo_world "p1" _ H)))).
Defined.

(** ** Taking an item off the market *)

Lemma filter_map_stable (f : Obj -> bool) (g : Obj -> Obj) (rows : list Obj) :
  (forall row, f (g row) = f row) ->
  List.filter f (map g rows) = map g (List.filter f rows).
Proof.
  intros Hfg. induction rows as [|row rows IH]; [done|]. cbn [map List.filter].
  rewrite Hfg. destruct (f row); cbn [map]; by rewrite IH.
Qed.

Lemma deactivation_payload (now itemId : string) (item : Obj) :
  (if matches (by_id itemId) item
   then <["updated_at" := VStr now]> {["is_active" := VBool false]} ∪ item
   else item) = deactivated now itemId item.
Proof.
  unfold deactivated. destruct (matches (by_id itemId) item); [|done].
  by rewrite <- insert_union_l, <- insert_union_singleton_l.
Qed.

Lemma deactivated_keeps (now itemId column : string) (v : Value) (item : Obj) :
  column <> "updated_at" -> column <> "is_active" ->
  matches [(column, v)] (deactivated now itemId item) = matches [(column, v)] item.
Proof.
  intros H1 H2. unfold deactivated.
  destruct (matches (by_id itemId) item); [|done].
  unfold matches. cbn [forallb]. by rewrite !lookup_insert_ne.
Qed.

(** X8. On the reference backend, after
    [updateMarketplaceItem(id, {is_active: false})] the item under that id
    is no longer among what [getMarketplaceItems] returns, every other
    active item still is, and [getUserMarketplaceItems] still returns all
    items of each seller, the deactivated one included. *)
Theorem deactivated_item_leaves_listing
    (c : Client) (w : World) (itemId : string) (rows : list Obj) :
  db w !! "marketplace_items" = Some rows ->
  let updated :=
    run ref_handler
      (updateMarketplaceItem (Some c) itemId {["is_active" := VBool false]}) w in
  outcome_of updated = Returned true /\
  (exists listed : list Obj,
     outcome_of (run ref_handler (getMarketplaceItems (Some c)) (world_of updated))
     = Returned listed /\
     Forall (fun item : Obj => item !! "id" <> Some (VStr itemId)) listed /\
     (forall item : Obj,
        In item rows -> item !! "is_active" = Some (VBool true) ->
        item !! "id" <> Some (VStr itemId) -> In item listed)) /\
  (forall seller : string,
     exists mine : list Obj,
       outcome_of (run ref_handler (getUserMarketplaceItems (Some c) seller)
                     (world_of updated)) = Returned mine /\
       mine ≡ₚ map (deactivated (now_iso w) itemId)
                   (List.filter (matches [("seller_username", VStr seller)]) rows)).
Proof.
  intros Hrows updated. subst updated.
  unfold updateMarketplaceItem. run_step.
  change (ref_handler DateToISOString w) with (now_iso w, w). run_step.
  erewrite ref_write; [|reflexivity|reflexivity|exact Hrows]. run_step.
  cbn [sb.eq sb.update sb.from table filters app].
  erewrite map_ext; [|intros item; apply deactivation_payload].
  split; [reflexivity|]. split.
  - unfold getMarketplaceItems. run_step.
    erewrite ref_read; [|reflexivity|apply lookup_set_db]. run_step.
    cbn [sb.eq sb.order sb.select sb.from ordering filters app apply_order foldr
         error data default].
    eexists. split; [reflexivity|]. split.
    + apply Forall_forall. intros item Hitem.
      rewrite merge_sort_Permutation in Hitem.
      apply list_elem_of_In, filter_In in Hitem as [Hin Hactive].
      apply in_map_iff in Hin as (row & <- & _). apply matches_one in Hactive.
      unfold deactivated in *. destruct (matches (by_id itemId) row) eqn:E.
      * by rewrite lookup_insert_ne, lookup_insert_eq in Hactive.
      * intros Hid. apply matches_one in Hid. congruence.
    + intros item Hin Hactive Hid.
      apply list_elem_of_In. rewrite merge_sort_Permutation.
      apply list_elem_of_In, filter_In. split; [|by apply matches_one].
      apply in_map_iff. exists item. split; [|done].
      unfold deactivated. destruct (matches (by_id itemId) item) eqn:E; [|done].
      by apply matches_one in E.
  - intros seller. unfold getUserMarketplaceItems. run_step.
    erewrite ref_read; [|reflexivity|apply lookup_set_db]. run_step.
    cbn [sb.eq sb.order sb.select sb.from ordering filters app apply_order foldr
         error data default].
    eexists. split; [reflexivity|].
    rewrite merge_sort_Permutation.
    by rewrite filter_map_stable by (intros; by apply deactivated_keeps).
Qed.

Lemma deactivated_item_leaves_listing_witness :
  db demo_market !! "marketplace_items"
  = Some [demo_item "i1" "alice" true; demo_item "i2" "bob" true] /\
  outcome_of (run ref_handler
                (updateMarketplaceItem (Some demo_client) "i1"
                   {["is_active" := VBool false]}) demo_market) = Returned true.
Proof.
  assert (H : db demo_market !! "marketplace_items"
              = Some [demo_item "i1" "alice" true; demo_item "i2" "bob" true])
    by (vm_compute; reflexivity).
  split; [exact H|].
  exact (proj1 (deactivated_item_leaves_listing demo_client demo_market "i1" _ H)).
Defined.

(** On the small market: i1 goes, i2 stays, alice still sees i1. *)
Example deactivation_demo :
  let w := world_of (run ref_handler
                       (updateMarketplaceItem (Some demo_client) "i1"
                          {["is_active" := VBool false]}) demo_market) in
  (fun o => match o with
            | Returned l => Some (map (fun item : Obj => item !! "id") l)
            | Thrown _ => None
            end)
    <$> [outcome_of (run ref_handler (getMarketplaceItems (Some demo_client)) w);
         outcome_of (run ref_handler (getUserMarketplaceItems (Some demo_client) "alice") w)]
  = [Some [Some (VStr "i2")]; Some [Some (VStr "i1")]].
Proof. vm_compute. reflexivity. Qed.

(** ** The modal: authentication status and profile data *)

(** X9. With the facade present [checkAuthStatus] never throws: it asks
    the session for its user and sets [isAuthenticated] to whether there
    is one; only when there is one does it look up the current user's
    profile, and it stores what the lookup returns, null included. *)
Theorem checkAuthStatus_sets_flag_then_profile
    (c : Client) (tr : Trace) (o : Outcome unit) :
  Exec (checkAuthStatus (Some c)) tr o -> auth_check_shape c tr o.
Proof.
  intros H. unfold checkAuthStatus in H. exec_cbn H.
  destruct H as (user & tr1 & -> & H). exec_cbn H.
  destruct H as ([] & tr2 & -> & H). destruct user as [user_id|].
  - apply Exec_try_catch_inv in H as [(a & H & ->) | (x & t1 & t2 & -> & H & Hh)];
      apply Exec_bind_inv in H as [(profile & t3 & t4 & -> & Hp & Hk) | (y & Hp & ?)];
      try (apply getCurrentUserProfile_returns in Hp as [[? [=]] _]; fail);
      exec_inv Hk.
    destruct r. split; [done|]. exists (Some user_id). eexists. split; [reflexivity|].
    by exists t3, profile.
  - exec_inv H. split; [done|]. exists None. eexists. split; [reflexivity|]. done.
Qed.

Lemma checkAuthStatus_sets_flag_then_profile_witness :
  let x := run ref_handler (checkAuthStatus (Some demo_client)) demo_world in
  Exec (checkAuthStatus (Some demo_client)) (trace_of x) (outcome_of x) /\
  auth_check_shape demo_client (trace_of x) (outcome_of x).
Proof.
  intros x. split; [apply run_Exec|].
  apply (checkAuthStatus_sets_flag_then_profile demo_client). apply run_Exec.
Defined.

Ltac unfold_fetch H :=
  unfold fetchProfileData, getUserPins, getCurrentUserProfile, getProfileByUsername in H.

(** X10. Whatever the facade, the props and the answers of the backend,
    [fetchProfileData] never throws; it switches [loading] on first and
    off last and nowhere in between, and sets the pins exactly once and
    the profile exactly once. *)
Theorem fetchProfileData_loading_bracket
    (supabase : option Client) (props : UserProfileModalProps) (tr : Trace)
    (o : Outcome unit) :
  Exec (fetchProfileData supabase props) tr o -> loading_bracket tr o.
Proof.
  intros H. unfold_fetch H. exec_inv H; units.
  all: try (exfalso; bool_facts; congruence).
  all: repeat split; reflexivity.
Qed.

Lemma fetchProfileData_loading_bracket_witness :
  let x := run ref_handler (fetchProfileData (Some demo_client) own_view) demo_world in
  Exec (fetchProfileData (Some demo_client) own_view) (trace_of x) (outcome_of x) /\
  loading_bracket (trace_of x) (outcome_of x).
Proof.
  intros x. split; [apply run_Exec|].
  apply (fetchProfileData_loading_bracket (Some demo_client) own_view). apply run_Exec.
Defined.



(** ** The modal: saving the profile *)




(** On the small deployment the text is stored trimmed and the blanks as
    null. *)
Example handleSaveProfile_demo :
  let p := handleSaveProfile (Some demo_client) own_view editing_state in
  let x := run ref_handler p demo_world in
  alerts (trace_of x) = ["Profile updated successfully!"] /\
  (fun rows : list Obj => (fun row : Obj => (row !! "about_me", row !! "contact_info"))
                            <$> rows)
    <$> (db (world_of x) !! "profiles")
  = Some [(Some (VStr "Gardener"), Some VNull)].
Proof. split; vm_compute; reflexivity. Qed.

(** ** The modal: the picture that is written *)




(** On the small deployment the stored URL is the public URL of the
    uploaded object. *)
Example picture_url_demo :
  let p := handleProfilePictureChange (Some demo_client) own_view (typing "")
             (Some demo_file) in
  (fun rows : list Obj => (.!! "profile_picture_url") <$> rows)
    <$> (db (world_of (run ref_handler p demo_world)) !! "profiles")
  = Some [Some (VStr ("https://demo.example/storage/v1/object/public/profile-pictures/"
                      +:+ "u1/1700000000000-k3x9q2.png"))].
Proof. vm_compute. reflexivity. Qed.

(** ** The modal: what the page lets through *)

(** X14. [handleDirectMessage] opens the chat window on the username
    shown, and then closes the modal, exactly when the viewer is signed in
    and the profile is not the viewer's own; otherwise it shows one alert
    and leaves the modal open.  From the Message button, which the page
    renders only for another, non-guest user's profile while signed in, it
    always opens the chat. *)
Theorem handleDirectMessage_opens_chat
    (props : UserProfileModalProps) (st : State) :
  (handleDirectMessage props st = [UiOnOpenChatWindow (Some (username props)); UiOnClose]
   <-> isAuthenticated st = true /\ isOwnProfile props = false) /\
  (isAuthenticated st = false \/ isOwnProfile props = true ->
   exists msg, handleDirectMessage props st = [UiAlert msg]) /\
  (messageButtonShown props st = true ->
   handleDirectMessage props st = [UiOnOpenChatWindow (Some (username props)); UiOnClose]).
Proof.
  unfold handleDirectMessage, messageButtonShown.
  destruct (isAuthenticated st), (isOwnProfile props), (isGuestUser props); cbn.
  all: repeat split; try done; try (intros [? ?]; done); try (intros [?|?]; eauto; done).
Qed.

Lemma handleDirectMessage_opens_chat_witness :
  messageButtonShown bob_view (typing "") = true /\
  handleDirectMessage bob_view (typing "") = [UiOnOpenChatWindow (Some "bob"); UiOnClose].
Proof.
  split; [reflexivity|].
  apply (proj2 (proj2 (handleDirectMessage_opens_chat bob_view (typing "")))). reflexivity.
Defined.

(** X15. [handleProfilePictureClick] opens the file picker exactly when
    the profile is the viewer's own, the viewer is signed in, the username
    is not a guest's and the input is mounted; an enabled picture button
    guarantees the first three.  Whenever the picker is opened with a
    profile loaded, the file then chosen passes the entry test of
    [handleProfilePictureChange]. *)
Theorem handleProfilePictureClick_opens_picker
    (props : UserProfileModalProps) (st : State) :
  (handleProfilePictureClick props st = [UiClickFileInput]
   <-> isOwnProfile props = true /\ isAuthenticated st = true /\
       isGuestUser props = false /\ profilePictureInputRef st = true) /\
  (handleProfilePictureClick props st = [UiClickFileInput] \/
   handleProfilePictureClick props st = []) /\
  (pictureButtonDisabled props st = false -> profilePictureInputRef st = true ->
   handleProfilePictureClick props st = [UiClickFileInput]) /\
  (handleProfilePictureClick props st = [UiClickFileInput] -> userProfile st <> None ->
   guard_passes props st).
Proof.
  unfold handleProfilePictureClick, pictureButtonDisabled, guard_passes.
  destruct (isOwnProfile props), (isAuthenticated st), (isGuestUser props),
    (profilePictureInputRef st), (isUploadingProfilePicture st); cbn.
  all: repeat split; try done; try (intros (? & ? & ? & ?); done); auto.
Qed.

Lemma handleProfilePictureClick_opens_picker_witness :
  pictureButtonDisabled own_view (typing "") = false /\
  profilePictureInputRef (typing "") = true /\
  handleProfilePictureClick own_view (typing "") = [UiClickFileInput].
Proof.
  split; [reflexivity|]. split; [reflexivity|].
  apply (proj1 (proj2 (proj2 (handleProfilePictureClick_opens_picker own_view (typing ""))))).
  - reflexivity.
  - reflexivity.
Defined.

(** X16. [handleUsernameSubmit] never throws.  On a string of seven
    digits it passes the string to [onUsernameChange], leaves the editing
    mode and clears the field, in that order; on any other string it does
    nothing, although the page disables the button only for a blank
    string: a non-blank string that is not seven digits is ignored without
    a message. *)
Theorem handleUsernameSubmit_resets_form
    (st : State) (tr : Trace) (o : Outcome unit) :
  Exec (handleUsernameSubmit st) tr o ->
  o = Returned tt /\
  (re_seven_digits (newUsername st) = true ->
   tr = [ev (OnUsernameChange (newUsername st)) tt;
         ev (SetState (setIsEditingUsername false)) tt;
         ev (SetState (setNewUsername "")) tt] /\
   usernameSubmitDisabled st = false) /\
  (re_seven_digits (newUsername st) = false -> tr = []).
Proof.
  intros H. unfold handleUsernameSubmit in H.
  destruct (negb (String.eqb (trim (newUsername st)) "")
            && (String.length (newUsername st) =? 7)%nat
            && re_digits (newUsername st)) eqn:Htest.
  - apply andb_true_iff in Htest as [Htest Hdig].
    apply andb_true_iff in Htest as [Htrim Hlen].
    unfold re_digits in Hdig. apply andb_true_iff in Hdig as [_ Hdig].
    exec_inv H; units. split; [done|]. split.
    + intros _. split; [reflexivity|]. unfold usernameSubmitDisabled.
      by apply negb_true_iff in Htrim.
    + unfold re_seven_digits. rewrite Hlen, Hdig. done.
  - exec_inv H. split; [done|]. split; [|done].
    intros Hseven. exfalso.
    apply username_accepted_iff_guest_pattern in Hseven as (Htrim & Hlen & Hdig).
    apply String.eqb_neq in Htrim. apply Nat.eqb_eq in Hlen.
    assert (String.eqb (newUsername st) "" = false) as Hne.
    { apply String.eqb_neq. intros E. rewrite E in Hlen. discriminate Hlen. }
    unfold re_digits in Htest. by rewrite Htrim, Hlen, Hne, Hdig in Htest.
Qed.

Lemma handleUsernameSubmit_resets_form_witness :
  let x := run ref_handler (handleUsernameSubmit (typing "seven77")) demo_world in
  re_seven_digits "seven77" = false /\ usernameSubmitDisabled (typing "seven77") = false /\
  Exec (handleUsernameSubmit (typing "seven77")) (trace_of x) (outcome_of x) /\
  trace_of x = [].
Proof.
  intros x. split; [reflexivity|]. split; [reflexivity|]. split; [apply run_Exec|].
  apply (handleUsernameSubmit_resets_form (typing "seven77") (trace_of x) (outcome_of x));
    [apply run_Exec|reflexivity].
Defined.

(** ** Without credentials *)

(** X17. The module leaves [supabase] null exactly when a connection
    parameter is absent or empty, and then whatever the library would do
    with the values; with both present, loading the module is the call
    [createClient(url, key)]: [supabase] is the client the library
    returns, and an error the library throws escapes while the module is
    loaded.  With [supabase] null, opening the modal asks nothing of the
    backend: [checkAuthStatus] returns at once and [fetchProfileData] sets
    an empty list of pins and, for a username that is not a guest's, a
    null profile, leaving the edit fields alone. *)
Theorem modal_without_credentials
    (createClient : string -> string -> Outcome Client) (url key : option string)
    (props : UserProfileModalProps) (tr : Trace) (o : Outcome unit) :
  (supabase_of_env createClient url key = Returned None <-> missing url \/ missing key) /\
  (forall u k, url = Some u -> key = Some k -> u <> "" -> k <> "" ->
     supabase_of_env createClient url key
     = match createClient u k with
       | Returned client => Returned (Some client)
       | Thrown x => Thrown x
       end) /\
  falls_back (checkAuthStatus None) tt /\
  (Exec (fetchProfileData None props) tr o ->
   backend_calls tr = [] /\ pins_updates tr = [[]] /\
   (re_seven_digits (username props) = false ->
    profiles_set tr = [None] /\ edit_field_updates tr = [])).
Proof.
  split; [|split; [|split]].
  - unfold missing. split.
    + intros Hs.
      destruct (decide (env_or_empty url = "")) as [Hu|Hu].
      { left. destruct url as [u|]; [right; by rewrite <- Hu|by left]. }
      destruct (decide (env_or_empty key = "")) as [Hk|Hk].
      { right. destruct key as [k|]; [right; by rewrite <- Hk|by left]. }
      rewrite supabase_present in Hs by done.
      by destruct (createClient (env_or_empty url) (env_or_empty key)).
    + intros H. apply supabase_absent.
      destruct H as [[-> | ->] | [-> | ->]]; auto.
  - intros u k -> -> Hu Hk. by apply supabase_present.
  - intros W h w. reflexivity.
  - intros H. unfold_fetch H. exec_inv H; units.
    all: split; [reflexivity|]; split; [reflexivity|]; intros Hguest.
    all: first [ split; reflexivity
               | exfalso; unfold isGuestUser in *; bool_facts; congruence ].
Qed.

Lemma modal_without_credentials_witness :
  let x := run ref_handler (fetchProfileData None own_view) demo_world in
  missing (Some "") /\
  supabase_of_env demo_createClient (Some "") (Some "anon-key") = Returned None /\
  Exec (fetchProfileData None own_view) (trace_of x) (outcome_of x) /\
  backend_calls (trace_of x) = [] /\ pins_updates (trace_of x) = [[]].
Proof.
  intros x.
  destruct (modal_without_credentials demo_createClient (Some "") (Some "anon-key")
              own_view (trace_of x) (outcome_of x)) as (H0 & _ & _ & H).
  assert (Hm : missing (Some "")) by (by right).
  split; [exact Hm|]. split; [apply H0; by left|].
  split; [apply run_Exec|].
  destruct (H (run_Exec ref_handler _ demo_world)) as (H1 & H2 & _). by split.
Defined.

(** With the library above: a URL gives the client, a bare host name makes
    the load of the module throw, an empty key leaves the facade null. *)
Example supabase_of_env_demo :
  supabase_of_env demo_createClient (Some "https://demo.example") (Some "anon-key")
  = Returned (Some demo_client) /\
  supabase_of_env demo_createClient (Some "demo.example") (Some "anon-key")
  = Thrown (Error "Invalid supabaseUrl: Must be a valid HTTP or HTTPS URL.") /\
  supabase_of_env demo_createClient (Some "https://demo.example") (Some "")
  = Returned None.
Proof. repeat split; vm_compute; reflexivity. Qed.

(** ** Uploads that fail *)

(** X18. With the facade present [uploadImage] never throws: it returns
    the stored path when the answer of the upload carries no error and a
    path, and null in every other case, an answer with neither error nor
    path included. *)
Theorem uploadImage_never_throws
    (c : Client) (file : File) (userId : string) (bucketName : option string)
    (tr : Trace) (o : Outcome (option string)) :
  Exec (uploadImage (Some c) file userId bucketName) tr o ->
  exists answer : Result string,
    upload_answers tr = [(default "pin-images" bucketName, answer)] /\
    o = Returned (path_unless_failed answer).
Proof.
  intros H. unfold uploadImage in H. exec_inv H; units.
  all: eexists; split; [reflexivity|]; unfold path_unless_failed.
  all: repeat match goal with E : error _ = _ |- _ => rewrite E end.
  all: repeat match goal with E : data _ = _ |- _ => rewrite E end.
  all: reflexivity.
Qed.

Lemma uploadImage_never_throws_witness :
  let p := uploadImage (Some demo_client) demo_file "u1" None in
  let x := run ref_handler p demo_world in
  Exec p (trace_of x) (outcome_of x) /\
  exists answer : Result string,
    upload_answers (trace_of x) = [("pin-images", answer)] /\
    outcome_of x = Returned (path_unless_failed answer).
Proof.
  intros p x. split; [apply run_Exec|].
  apply (uploadImage_never_throws demo_client demo_file "u1" None). apply run_Exec.
Defined.

(** ** Two tasks, one profile *)

Ltac answer_ui :=
  repeat match goal with
    | |- context [ref_handler (SetState ?u) ?w] =>
        change (ref_handler (SetState u) w) with (tt, w)
    | |- context [ref_handler (ConsoleLog ?m) ?w] =>
        change (ref_handler (ConsoleLog m) w) with (tt, w)
    | |- context [ref_handler (ConsoleError ?m) ?w] =>
        change (ref_handler (ConsoleError m) w) with (tt, w)
    | |- context [ref_handler AuthGetUser ?w] =>
        change (ref_handler AuthGetUser w) with (session w, w)
    end.

Ltac pool_cbn :=
  cbn [concurrently start settle is_async try_catch try_finally bind call interleave
       resume lookup list_lookup insert list_insert fst snd map finished error data app
       default].

Ltac pool_run := repeat (progress (pool_cbn; answer_ui)).

Ltac pool_run_with H := repeat (progress (pool_cbn; answer_ui; rewrite ?H)).

(** On another user's profile [fetchProfileData], task 0, awaits two
    answers and [checkAuthStatus], task 1, awaits three: the orders in
    which the five answers can arrive. *)
Lemma open_schedules (sched : list nat) :
  sched ≡ₚ [0; 0; 1; 1; 1]%nat ->
  In sched [[0; 0; 1; 1; 1]; [0; 1; 0; 1; 1]; [0; 1; 1; 0; 1]; [0; 1; 1; 1; 0];
            [1; 0; 0; 1; 1]; [1; 0; 1; 0; 1]; [1; 0; 1; 1; 0];
            [1; 1; 0; 0; 1]; [1; 1; 0; 1; 0]; [1; 1; 1; 0; 0]]%nat.
Proof.
  intros H.
  assert (Hlen : length sched = 5%nat) by (by rewrite H).
  assert (Hsum : sum_list sched = 3%nat) by (by rewrite H).
  assert (Hle : Forall (fun i => (i <= 1)%nat) sched) by (rewrite H; repeat constructor).
  do 6 (destruct sched as [|? sched]; try discriminate Hlen).
  repeat match goal with
    | H : Forall _ (_ :: _) |- _ => apply Forall_cons in H as [? H]
    end.
  repeat match goal with
    | H : (?n <= 1)%nat |- _ =>
        is_var n; assert (n = 0 \/ n = 1)%nat as [-> | ->] by lia; clear H
    end.
  all: try discriminate Hsum.
  all: cbn; tauto.
Qed.

(** X19. Opening the modal, signed in, on another user's profile starts
    two tasks that both set [userProfile]: [fetchProfileData] sets it to
    the profile of the user shown, [checkAuthStatus] to the viewer's own.
    On the reference backend, in every order in which the five answers
    the two tasks await can arrive, the task answered last wins: the modal
    is left with the viewer's own profile when the last answer goes to the
    authentication check, with the profile of the user shown when it goes
    to the fetch. *)
Theorem open_modal_profile_race
    (c : Client) (w : World) (props : UserProfileModalProps) (user_id : string)
    (pins profiles others : list Obj) (me them : Obj) (sched : list nat) :
  session w = Some user_id ->
  db w !! "pins" = Some pins ->
  db w !! "profiles" = Some profiles ->
  List.filter (matches [("id", VStr user_id)]) profiles = [me] ->
  List.filter (matches [("username", VStr (username props))]) profiles = them :: others ->
  isOpen props = true -> username props <> "" ->
  isOwnProfile props = false -> re_seven_digits (username props) = false ->
  sched ≡ₚ [0; 0; 1; 1; 1]%nat ->
  (last sched = Some 1%nat -> opened_with c props w sched (Some them) (Some me)) /\
  (last sched = Some 0%nat -> opened_with c props w sched (Some me) (Some them)).
Proof.
  intros Hsession Hpins Hprofiles Hme Hthem Hopen Hname Hown Hguest Hsched.
  apply String.eqb_neq in Hname.
  unfold opened_with, useEffect_open. rewrite Hopen, Hname. cbn [andb negb].
  unfold fetchProfileData, checkAuthStatus, isGuestUser. rewrite Hguest, Hown.
  cbn [negb]. unfold getUserPins, getProfileByUsername, getCurrentUserProfile.
  unfold concurrently.
  apply open_schedules in Hsched. cbn [In] in Hsched.
  repeat destruct Hsched as [<- | Hsched]; [..|done].
  all: split; intros Hlast; try discriminate Hlast.
  all: repeat first
         [ progress (pool_cbn; answer_ui; rewrite ?Hsession)
         | erewrite ref_read; [|reflexivity|first [exact Hpins | exact Hprofiles]]
         | erewrite ref_read_single; [|reflexivity|exact Hprofiles]
         | progress cbn [sb.eq sb.select sb.order sb.from filters ordering app
                         apply_order foldr]
         | rewrite Hthem
         | rewrite Hme ].
  all: split; reflexivity.
Qed.

Lemma open_modal_profile_race_witness :
  session demo_world_with_bob = Some "u1" /\
  isOwnProfile bob_view = false /\ re_seven_digits (username bob_view) = false /\
  [1; 0; 1; 0; 1]%nat ≡ₚ [0; 0; 1; 1; 1]%nat /\
  [0; 1; 1; 1; 0]%nat ≡ₚ [0; 0; 1; 1; 1]%nat /\
  opened_with demo_client bob_view demo_world_with_bob [1; 0; 1; 0; 1]%nat
    (Some demo_bob_profile) (Some demo_profile) /\
  opened_with demo_client bob_view demo_world_with_bob [0; 1; 1; 1; 0]%nat
    (Some demo_profile) (Some demo_bob_profile).
Proof.
  assert (P1 : [1; 0; 1; 0; 1]%nat ≡ₚ [0; 0; 1; 1; 1]%nat)
    by (apply (bool_decide_unpack _); vm_compute; reflexivity).
  assert (P2 : [0; 1; 1; 1; 0]%nat ≡ₚ [0; 0; 1; 1; 1]%nat)
    by (apply (bool_decide_unpack _); vm_compute; reflexivity).
  assert (Hname : username bob_view <> "") by (cbn; discriminate).
  split; [reflexivity|]. split; [reflexivity|]. split; [reflexivity|].
  split; [exact P1|]. split; [exact P2|]. split.
  - refine (proj1 (open_modal_profile_race demo_client demo_world_with_bob bob_view "u1"
                     _ [demo_profile; demo_bob_profile] [] demo_profile demo_bob_profile
                     [1; 0; 1; 0; 1]%nat _ _ _ _ _ _ Hname _ _ P1) _);
      try reflexivity; vm_compute; reflexivity.
  - refine (proj2 (open_modal_profile_race demo_client demo_world_with_bob bob_view "u1"
                     _ [demo_profile; demo_bob_profile] [] demo_profile demo_bob_profile
                     [0; 1; 1; 1; 0]%nat _ _ _ _ _ _ Hname _ _ P2) _);
      try reflexivity; vm_compute; reflexivity.
Defined.

(** ** Drafts *)

Lemma filter_no_filters (rows : list Obj) : List.filter (matches []) rows = rows.
Proof. induction rows as [|row rows IH]; [done|]. cbn. by rewrite IH. Qed.

(** X20. On the reference backend [getBlogPosts()] and
    [getBlogPosts(true)] return exactly the published posts, while
    [getBlogPosts(false)] returns every post of the table, the drafts of
    every author included, and [getUserBlogPosts(u)] returns all posts of
    [u], published or not; each list comes latest first. *)
Theorem blog_listings_and_drafts
    (c : Client) (w : World) (rows : list Obj) (author : string) :
  db w !! "blog_posts" = Some rows ->
  (forall publishedOnly : option bool,
     default true publishedOnly = true ->
     lists_latest_first
       (outcome_of (run ref_handler (getBlogPosts (Some c) publishedOnly) w))
       (List.filter (matches [("is_published", VBool true)]) rows)) /\
  lists_latest_first
    (outcome_of (run ref_handler (getBlogPosts (Some c) (Some false)) w)) rows /\
  lists_latest_first
    (outcome_of (run ref_handler (getUserBlogPosts (Some c) author) w))
    (List.filter (matches [("author_username", VStr author)]) rows).
Proof.
  intros Hrows. unfold lists_latest_first. repeat apply conj.
  - intros publishedOnly Hdefault. unfold getBlogPosts. rewrite Hdefault. run_step.
    erewrite ref_read; [|reflexivity|exact Hrows]. run_step.
    cbn [sb.eq sb.order sb.select sb.from ordering filters app apply_order foldr
         error data default].
    eexists. split; [reflexivity|]. split; [apply merge_sort_Permutation|].
    apply StronglySorted_merge_sort; apply _.
  - unfold getBlogPosts. cbn [default]. run_step.
    erewrite ref_read; [|reflexivity|exact Hrows]. run_step.
    cbn [sb.eq sb.order sb.select sb.from ordering filters app apply_order foldr
         error data default].
    rewrite filter_no_filters.
    eexists. split; [reflexivity|]. split; [apply merge_sort_Permutation|].
    apply StronglySorted_merge_sort; apply _.
  - unfold getUserBlogPosts. run_step.
    erewrite ref_read; [|reflexivity|exact Hrows]. run_step.
    cbn [sb.eq sb.order sb.select sb.from ordering filters app apply_order foldr
         error data default].
    eexists. split; [reflexivity|]. split; [apply merge_sort_Permutation|].
    apply StronglySorted_merge_sort; apply _.
Qed.

Lemma blog_listings_and_drafts_witness :
  db demo_world !! "blog_posts" = Some [demo_post "p1" 10] /\
  lists_latest_first
    (outcome_of (run ref_handler (getBlogPosts (Some demo_client) (Some false)) demo_world))
    [demo_post "p1" 10].
Proof.
  assert (H : db demo_world !! "blog_posts" = Some [demo_post "p1" 10])
    by (vm_compute; reflexivity).
  split; [exact H|].
  exact (proj1 (proj2 (blog_listings_and_drafts demo_client demo_world _ "alice" H))).
Defined.

(** On the small deployment the one post, which carries no publication
    flag, is left out by default and listed on request. *)
Example getBlogPosts_demo :
  outcome_of (run ref_handler (getBlogPosts (Some demo_client) None) demo_world)
  = Returned [] /\
  outcome_of (run ref_handler (getBlogPosts (Some demo_client) (Some false)) demo_world)
  = Returned [demo_post "p1" 10].
Proof. split; vm_compute; reflexivity. Qed.
